(** * ROTC_Weather: the guidance engine of [ROTC_Weather.py]

    A shallow embedding of the pure functions of the training dashboard
    (unit conversions, wind chill, heat category, condition interpreter,
    uniform recommendations, final decision) and the properties its
    specification states about them.

    Numbers.  The Python code computes on [float]s and compares them with
    decimal literals.  Here a float is a real number and a literal is the
    decimal it is written as; rounding is not modelled.  [x ** 0.16] is
    [Rpower x 0.16], which is [exp (0.16 * ln x)].  Integers (the heat
    category number, the uniform level) are in [Z].

    Strings.  A Python [str] is a [string]; [str.lower] folds the ASCII
    capitals, and [sub in s] is substring search.

    Routes.  The weather fetch, the clock and the HTML are left out.  Of the
    routes the file keeps what they compute from an observation or from one
    forecast day: the indices, the guidance, the forecast card, the weekly
    row, the manual override, and the two colour tests of the page template.
    [round(x, n)] is rounding of the real number to [n] decimals, ties to
    even; text made by formatting a number is kept as the number. *)

From Stdlib Require Import Reals Lra Lia ZArith Bool List.
From Stdlib Require Import Ascii String.
Import ListNotations.

Local Open Scope R_scope.

(** ** Comparisons of Python floats, as booleans *)

Module PyFloat.

Definition leb (x y : R) : bool := if Rle_dec x y then true else false.
Definition ltb (x y : R) : bool := if Rlt_dec x y then true else false.
Definition gtb (x y : R) : bool := ltb y x.

End PyFloat.

Notation "x <=? y" := (PyFloat.leb x y) : R_scope.
Notation "x <? y" := (PyFloat.ltb x y) : R_scope.
Notation "x >? y" := (PyFloat.gtb x y) (at level 70, no associativity) : R_scope.

(** ** Helpers *)

Definition WBGT_CUTOFF_F : R := 50.

Definition f_to_c (Tf : R) : R := (Tf - 32.0) * 5.0 / 9.0.

Definition c_to_f (Tc : R) : R := Tc * 9.0 / 5.0 + 32.0.

(** [None] is Python's [None]: the wind chill does not apply. *)
Definition wind_chill_f (Tf wind_mph : R) : option R :=
  if (Tf >? 50) || (wind_mph <=? 3) then None
  else Some (35.74 + 0.6215 * Tf - 35.75 * Rpower wind_mph 0.16
             + 0.4275 * Tf * Rpower wind_mph 0.16).

(** ** Python strings *)

Module PyStr.

Local Open Scope nat_scope.

Definition lower_char (c : ascii) : ascii :=
  let n := nat_of_ascii c in
  if (65 <=? n) && (n <=? 90) then ascii_of_nat (n + 32) else c.

(** [s.lower()] *)
Fixpoint lower (s : string) : string :=
  match s with
  | EmptyString => EmptyString
  | String c s' => String (lower_char c) (lower s')
  end.

(** [sub in s] *)
Fixpoint contains (sub s : string) : bool :=
  prefix sub s ||
  match s with
  | EmptyString => false
  | String _ s' => contains sub s'
  end.

(** [x or ""] on an optional string *)
Definition or_empty (x : option string) : string :=
  match x with
  | Some s => s
  | None => EmptyString
  end.

(** Truth value of an optional string: [None] and [""] are false. *)
Definition truthy (x : option string) : bool :=
  match x with
  | Some (String _ _) => true
  | _ => false
  end.

End PyStr.

Local Open Scope string_scope.
Local Open Scope R_scope.

(** ** Heat category *)

Definition heat_category_from_wbgt_f (wbgt_f : R) : string * Z :=
  if wbgt_f <? 78 then ("Below White", 1%Z)
  else if (78 <=? wbgt_f) && (wbgt_f <=? 81.9) then ("White (Cat 1)", 1%Z)
  else if (82 <=? wbgt_f) && (wbgt_f <=? 84.9) then ("Green (Cat 2)", 2%Z)
  else if (85 <=? wbgt_f) && (wbgt_f <=? 87.9) then ("Yellow (Cat 3)", 3%Z)
  else if (88 <=? wbgt_f) && (wbgt_f <=? 89.9) then ("Red (Cat 4)", 4%Z)
  else ("Black (Cat 5)", 5%Z).

(** ** Precipitation / condition interpreter *)

Definition interpret_condition (cond_text : option string)
  : string * string * option string :=
  let c := PyStr.lower (PyStr.or_empty cond_text) in
  let has := fun kw => PyStr.contains kw c in
  if has "thunder" || has "storm" then
    ("extreme", "Thunderstorm / lightning risk", Some "NO OUTDOOR TRAINING")
  else if has "freezing rain" || (has "freezing" && has "rain") then
    ("extreme", "Freezing rain / ice risk", Some "NO OUTDOOR TRAINING")
  else if has "sleet" || has "ice" || has "icy" then
    ("extreme", "Icy conditions", Some "NO OUTDOOR TRAINING")
  else if has "blizzard" then
    ("extreme", "Blizzard / near-zero visibility", Some "NO OUTDOOR_TRAINING")
  else if has "heavy snow" then
    ("high", "Heavy snow — visibility & slip risk", None)
  else if has "snow" || has "flurr" then
    ("moderate", "Snow present — traction/visibility caution", None)
  else if has "heavy rain" || has "torrential" then
    ("high", "Heavy rain — hypothermia & slip risk", None)
  else if has "rain" || has "shower" then
    ("moderate", "Rain — wet/hypothermia risk", None)
  else if has "drizzle" || has "light rain" then
    ("low", "Light rain / drizzle", None)
  else if has "fog" || has "mist" then
    ("moderate", "Fog / reduced visibility", None)
  else ("low", "No precipitation hazards", None).

(** ** Option A uniform recommendations *)

Definition recommend_uniform_option_a
    (temp_f : R) (wind_chill_f : option R) (heat_cat_num : option Z)
    (wbgt_applicable : bool) (precip_level : string) : string * Z :=
  let rule4 :=
    if (temp_f <=? 50) && (temp_f >? 33) then
      ("OCP + fleece optional; monitor wind and wetness.", 1%Z)
    else ("Standard OCP/PT uniform", 0%Z) in
  if (precip_level =? "extreme")%string then
    ("Suspend outdoor training due to dangerous precipitation (lightning/ice).", 3%Z)
  else
    match wbgt_applicable, heat_cat_num with
    | true, Some n =>
        if (n >=? 5)%Z then
          ("Light clothing only; no armor; full hydration and move indoors", 3%Z)
        else if (n =? 4)%Z then
          ("Light OCP/PT, reduce load, hydrate frequently", 2%Z)
        else if (n =? 3)%Z then
          ("OCP, consider modified load and frequent water breaks", 1%Z)
        else ("Standard OCP/PT uniform", 0%Z)
    | _, _ =>
        match wind_chill_f with
        | Some wc =>
            if wc <=? -20 then
              ("Arctic clothing / extreme cold gear. No exposed skin. No outdoor training.", 3%Z)
            else if wc <=? 0 then
              ("Parka + layered clothing + gloves + balaclava. Move indoors for prolonged training.", 2%Z)
            else if wc <=? 20 then
              ("OCP + parka + gloves + warm layers. Limit prolonged exposed activities.", 2%Z)
            else if wc <=? 32 then ("OCP + fleece + gloves recommended.", 1%Z)
            else rule4
        | None => rule4
        end
    end.

(** ** PT uniform recommendations *)

(** The argument of [recommend_pt_uniform] as [float()] sees it: a number,
    or a value on which [float()] raises ([None], text that is no number). *)
Inductive PyArg : Type :=
| PyNumber (t : R)
| PyNonNumeric.

(** [float(x)]; [None] stands for the exception. *)
Definition py_float (x : PyArg) : option R :=
  match x with
  | PyNumber t => Some t
  | PyNonNumeric => None
  end.

Definition recommend_pt_uniform (temp_f : PyArg) : string :=
  match py_float temp_f with
  | None => "Standard PT uniform"
  | Some t =>
      if t >? 80 then "Short-sleeve shirt + shorts"
      else if (60 <=? t) && (t <=? 80) then
        "Short-sleeve shirt + shorts (light jacket optional)"
      else if (40 <=? t) && (t <=? 59) then "Long-sleeve shirt + pants"
      else if (20 <=? t) && (t <=? 39) then "Sweats + jacket (+ hat optional)"
      else "Full cold-weather PT gear (sweats, gloves, hat)"
  end.

(** ** Final decision logic *)

Definition final_training_decision
    (temp_f : R) (wind_chill_f : option R) (heat_cat_num : option Z)
    (wbgt_applicable : bool) (precip_override : option string)
    (precip_level : string) : string :=
  let wc_le := fun bound =>
    match wind_chill_f with
    | Some wc => wc <=? bound
    | None => false
    end in
  if PyStr.truthy precip_override then PyStr.or_empty precip_override
  else if wc_le (-20) then "NO OUTDOOR TRAINING — EXTREME COLD"
  else if wc_le 0 then "MOVE TRAINING INDOORS / HIGH COLD RISK"
  else if wc_le 20 then
    "LIMIT OUTDOOR TRAINING / USE INDOORS WHEN POSSIBLE (COLD CAUTION)"
  else if (precip_level =? "high")%string then
    "LIMIT OUTDOOR TRAINING / USE INDOORS WHEN POSSIBLE (PRECIPITATION)"
  else
    match wbgt_applicable, heat_cat_num with
    | true, Some n =>
        if (n >=? 5)%Z then "NO OUTDOOR TRAINING — EXTREME HEAT (BLACK FLAG)"
        else if (n =? 4)%Z then
          "LIMIT OUTDOOR TRAINING / USE INDOORS WHEN POSSIBLE (HEAT)"
        else if (n =? 3)%Z then "TRAIN OUTDOORS WITH CAUTION (HEAT)"
        else "TRAIN OUTDOORS (NO RESTRICTIONS)"
    | _, _ => "TRAIN OUTDOORS (NO RESTRICTIONS)"
    end.

(** ** The dashboard route, from the indices on

    [dashboard] reads the observation, computes [wbgt_f] and then derives
    everything below from [temp_f], [wind_mph], [wbgt_f] and the condition
    text.  The same lines serve each forecast day and each weekly row. *)

Record Guidance : Type := {
  wc : option R;
  wbgt_applicable : bool;
  heat_label : string;
  heat_num : option Z;
  precip_level : string;
  cond_note : string;
  precip_override : option string;
  uniform : string;
  uniform_level : Z;
  final_dec : string;
  pt_uniform : string
}.

Definition dashboard (temp_f wind_mph wbgt_f : R) (weather_text : option string)
  : Guidance :=
  let wc := wind_chill_f temp_f wind_mph in
  let wbgt_applicable := temp_f >? WBGT_CUTOFF_F in
  let '(heat_label, heat_num) :=
    if wbgt_applicable then
      let '(l, n) := heat_category_from_wbgt_f wbgt_f in (l, Some n)
    else ("N/A (cold)", None) in
  let '(precip_level, cond_note, precip_override) :=
    interpret_condition weather_text in
  let '(uniform, uniform_level) :=
    recommend_uniform_option_a temp_f wc heat_num wbgt_applicable precip_level in
  let final_dec :=
    final_training_decision temp_f wc heat_num wbgt_applicable
      precip_override precip_level in
  {| wc := wc; wbgt_applicable := wbgt_applicable;
     heat_label := heat_label; heat_num := heat_num;
     precip_level := precip_level; cond_note := cond_note;
     precip_override := precip_override;
     uniform := uniform; uniform_level := uniform_level;
     final_dec := final_dec;
     pt_uniform := recommend_pt_uniform (PyNumber temp_f) |}.

(** ** Python built-ins used by the rest of the file *)

Module PyMath.

(** [x ** y] for a base [x >= 0] and an exponent [y > 0]: zero at zero. *)
Definition pow (x y : R) : R := if Req_dec_T x 0 then 0 else Rpower x y.

(** The integer nearest to [x], ties going to the even one. *)
Definition round_half_even (x : R) : Z :=
  let n := Int_part x in
  let f := x - IZR n in
  if f <? 1 / 2 then n
  else if 1 / 2 <? f then (n + 1)%Z
  else if Z.even n then n else (n + 1)%Z.

(** [round(x, ndigits)] *)
Definition round (x : R) (ndigits : nat) : R :=
  IZR (round_half_even (x * 10 ^ ndigits)) / 10 ^ ndigits.

(** [int(x)]: truncation towards zero. *)
Definition int (x : R) : Z :=
  if 0 <=? x then Int_part x else (- Int_part (- x))%Z.

(** [d.get(key, default)], the looked-up value being [None] when the key is
    missing. *)
Definition get {A : Type} (value : option A) (default : A) : A :=
  match value with
  | Some v => v
  | None => default
  end.

End PyMath.

(** ** Wet bulb and WBGT *)

Definition approx_natural_wet_bulb (Tc rh : R) : R :=
  let rh := Rmax 0.0 (Rmin 100.0 rh) in
  Tc * atan (0.151977 * sqrt (rh + 8.313659))
  + atan (Tc + rh) - atan (rh - 1.676331)
  + 0.00391838 * PyMath.pow rh 1.5 * atan (0.023101 * rh)
  - 4.686035.

(** Returns [(wbgt_c, Tw, Tg)].  The source defaults are [sunny = False] and
    [globe_offset_c = 3.0]. *)
Definition approx_wbgt (Tc rh : R) (sunny : bool) (globe_offset_c : R)
  : R * R * R :=
  let Tw := approx_natural_wet_bulb Tc rh in
  let Tg := if sunny then Tc + globe_offset_c else Tc in
  let wbgt_c := 0.7 * Tw + 0.3 * Tg in
  (wbgt_c, Tw, Tg).

(** ** The page template: the class of the uniform and of the decision *)

Definition uniform_css_class (uniform_level : Z) : string :=
  if (uniform_level =? 0)%Z then "green"
  else if (uniform_level =? 1)%Z then "yellow"
  else if (uniform_level =? 2)%Z then "red"
  else "black".

Definition decision_css_class (final_decision : string) : string :=
  if PyStr.contains "NO OUTDOOR" final_decision
     || PyStr.contains "MOVE" final_decision then "red"
  else if PyStr.contains "LIMIT" final_decision then "yellow"
  else "green".

(** ** The dashboard route, from the observation on *)

(** The indices the route computes before the guidance:
    [(temp_c, wbgt_c, wbgt_f, twb_c, tg_c)], with [twb_c] and [tg_c] as shown,
    that is rounded. *)
Definition dashboard_indices (temp_f rh clouds : R) : R * R * R * R * R :=
  let sunny := clouds <? 30 in
  let temp_c := PyMath.round (f_to_c temp_f) 2 in
  let '(wbgt_c, twb_c, tg_c) := approx_wbgt temp_c rh sunny 3.0 in
  let wbgt_f := PyMath.round (c_to_f wbgt_c) 2 in
  (temp_c, wbgt_c, wbgt_f, PyMath.round twb_c 2, PyMath.round tg_c 2).

Definition dashboard_route (temp_f rh wind_mph clouds : R)
    (weather_text : option string) : Guidance :=
  let '(_, _, wbgt_f, _, _) := dashboard_indices temp_f rh clouds in
  dashboard temp_f wind_mph wbgt_f weather_text.

(** The manual override.  A query field is [None] when it is empty, and
    otherwise what [float()] makes of it. *)
Inductive ManualInput : Type :=
| Manual (temp_f rh wind_mph : R) (weather_text : string) (clouds : R)
| LiveFetch
| Invalid (message : string) (status : Z).

Definition manual_override (q_temp_f q_rh q_wind : option PyArg) : ManualInput :=
  match q_temp_f, q_rh with
  | Some a, Some b =>
      match py_float a, py_float b with
      | Some temp_f, Some rh =>
          match q_wind with
          | Some w =>
              match py_float w with
              | Some wind_mph => Manual temp_f rh wind_mph "Manual" 0
              | None =>
                  Invalid "Invalid manual input (temp/rh/wind must be numbers)" 400
              end
          | None => Manual temp_f rh 3.0 "Manual" 0
          end
      | _, _ => Invalid "Invalid manual input (temp/rh/wind must be numbers)" 400
      end
  | _, _ => LiveFetch
  end.

(** ** One day of the forecast *)

(** The keys read from a forecast day.  [avgtemp_f], [avgtemp_c] and the date
    are read with [d[key]]; the others with [d.get(key, default)], [None]
    being a missing key. *)
Record DayData : Type := {
  day_date : string;
  condition_text : option string;
  daily_chance_of_snow : option R;
  daily_chance_of_rain : option R;
  avgtemp_f : R;
  avgtemp_c : R;
  avghumidity : option R;
  maxwind_mph : option R
}.

Definition forecast_precip_type (cond : string) (dday : DayData) : string :=
  let cond_l := PyStr.lower cond in
  if PyStr.contains "snow" cond_l || PyStr.contains "flurr" cond_l
     || (PyMath.get (daily_chance_of_snow dday) 0 >? 20) then "Snow/Flurries"
  else if PyStr.contains "rain" cond_l
          || (PyMath.get (daily_chance_of_rain dday) 0 >? 20) then "Rain"
  else "None".

Module Forecast.

(** One entry of [forecast_out].  [wc] is the wind chill that the entry shows
    as the text [wc_text]; [heat_label] and [heat_num] are the values of the
    loop that the uniform and the decision are computed from. *)
Record Card : Type := {
  date : string;
  temp_f : R;
  temp_c : R;
  rh : Z;
  wind_mph : R;
  condition : string;
  precip_type : string;
  clouds : R;
  wbgt_f : R;
  wbgt_c : R;
  wc : option R;
  heat_label : string;
  heat_num : option Z;
  uniform : string;
  uniform_level : Z;
  final : string;
  pt_uniform : string
}.

End Forecast.

(** The body of the forecast loop of [dashboard]; [None] is the [KeyError]
    of [dday["condition"]["text"]] on a day without condition text. *)
Definition forecast_day (dday : DayData) : option Forecast.Card :=
  match condition_text dday with
  | None => None
  | Some cond =>
      let precip := forecast_precip_type cond dday in
      let avg_f := avgtemp_f dday in
      let avg_c := avgtemp_c dday in
      let rh_d := PyMath.get (avghumidity dday) 50 in
      let wind_max := PyMath.get (maxwind_mph dday) 0 in
      let clouds_pct :=
        Rmax (PyMath.get (daily_chance_of_rain dday) 0)
             (PyMath.get (daily_chance_of_snow dday) 0) in
      let sunny_d := clouds_pct <? 30 in
      let '(wbgt_c_d, twb_d, tg_d) := approx_wbgt avg_c rh_d sunny_d 3.0 in
      let wbgt_f_d := PyMath.round (c_to_f wbgt_c_d) 1 in
      let wc_d := wind_chill_f avg_f wind_max in
      let wbgt_app_d := avg_f >? WBGT_CUTOFF_F in
      let '(heat_label_d, heat_num_d) :=
        if wbgt_app_d then
          let '(l, n) := heat_category_from_wbgt_f wbgt_f_d in (l, Some n)
        else ("Cold", None) in
      let '(precip_level_d, precip_note_d, precip_override_d) :=
        interpret_condition (Some cond) in
      let '(uniform_d, lvl_d) :=
        recommend_uniform_option_a avg_f wc_d heat_num_d wbgt_app_d
          precip_level_d in
      let final_d :=
        final_training_decision avg_f wc_d heat_num_d wbgt_app_d
          precip_override_d precip_level_d in
      let pt_uniform_d := recommend_pt_uniform (PyNumber avg_f) in
      Some {| Forecast.date := day_date dday;
              Forecast.temp_f := PyMath.round avg_f 1;
              Forecast.temp_c := PyMath.round avg_c 1;
              Forecast.rh := PyMath.int rh_d;
              Forecast.wind_mph := PyMath.round wind_max 1;
              Forecast.condition := cond;
              Forecast.precip_type := precip;
              Forecast.clouds := clouds_pct;
              Forecast.wbgt_f := wbgt_f_d;
              Forecast.wbgt_c := PyMath.round wbgt_c_d 1;
              Forecast.wc := wc_d;
              Forecast.heat_label := heat_label_d;
              Forecast.heat_num := heat_num_d;
              Forecast.uniform := uniform_d;
              Forecast.uniform_level := lvl_d;
              Forecast.final := final_d;
              Forecast.pt_uniform := pt_uniform_d |}
  end.

(** ** One row of the weekly slide *)

Module Weekly.

(** One entry of [rows].  [wc] is the wind chill that the row shows as
    text; [heat_num] is the value of the loop that goes with the label
    [heat]. *)
Record Row : Type := {
  date : string;
  avg_f : R;
  rh : Z;
  wind : R;
  wbgt_f : R;
  heat : string;
  heat_num : option Z;
  wc : option R;
  final : string;
  uniform : string;
  pt_uniform : string
}.

End Weekly.

(** The body of the loop of [weekly]. *)
Definition weekly_row (d : DayData) : Weekly.Row :=
  let avg_f := avgtemp_f d in
  let rh := PyMath.int (PyMath.get (avghumidity d) 50) in
  let wind := PyMath.round (PyMath.get (maxwind_mph d) 0) 1 in
  let clouds_pct :=
    Rmax (PyMath.get (daily_chance_of_rain d) 0)
         (PyMath.get (daily_chance_of_snow d) 0) in
  let temp_c := f_to_c avg_f in
  let sunny := clouds_pct <? 30 in
  let '(wbgt_c, twb, tg) := approx_wbgt temp_c (IZR rh) sunny 3.0 in
  let wbgt_f := PyMath.round (c_to_f wbgt_c) 1 in
  let wc := wind_chill_f avg_f wind in
  let wbgt_app := avg_f >? WBGT_CUTOFF_F in
  let '(heat_label, heat_num) :=
    if wbgt_app then
      let '(l, n) := heat_category_from_wbgt_f wbgt_f in (l, Some n)
    else ("N/A", None) in
  let '(precip_level, precip_note, precip_override) :=
    interpret_condition (Some (PyMath.get (condition_text d) "")) in
  let '(uniform, _) :=
    recommend_uniform_option_a avg_f wc heat_num wbgt_app precip_level in
  let final :=
    final_training_decision avg_f wc heat_num wbgt_app precip_override
      precip_level in
  let pt := recommend_pt_uniform (PyNumber avg_f) in
  {| Weekly.date := day_date d;
     Weekly.avg_f := PyMath.round avg_f 1;
     Weekly.rh := rh;
     Weekly.wind := wind;
     Weekly.wbgt_f := wbgt_f;
     Weekly.heat := heat_label;
     Weekly.heat_num := heat_num;
     Weekly.wc := wc;
     Weekly.final := final;
     Weekly.uniform := uniform;
     Weekly.pt_uniform := pt |}.

(** * The specification's side

    Definitions that follow the words of the specification, to compare the
    code with. *)

(** The wind-chill formula of section 4.1. *)
Definition wind_chill_formula (T V : R) : R :=
  35.74 + 0.6215 * T - 35.75 * Rpower V 0.16 + 0.4275 * T * Rpower V 0.16.


(** The condition interpreter read as an ordered rule table. *)

(** A rule matches when, for one of its alternatives, every keyword of the
    alternative occurs in the lowered text. *)
Definition Rule : Type := list (list string) * (string * string * option string).

Definition rule_matches (c : string) (r : Rule) : bool :=
  existsb (forallb (fun kw => PyStr.contains kw c)) (fst r).

Fixpoint first_match (rules : list Rule) (default : string * string * option string)
    (c : string) : string * string * option string :=
  match rules with
  | [] => default
  | r :: rest => if rule_matches c r then snd r else first_match rest default c
  end.

(** The keyword rules in the priority order of section 4.2: thunder/storm,
    freezing rain, sleet/ice/icy, blizzard, heavy snow, snow/flurries, heavy
    rain/torrential, rain/shower, drizzle/light rain, fog/mist.  The keywords
    are those of the source: the stem "flurr" stands for flurries, and the
    freezing-rain rule has a second alternative, "freezing" and "rain" both
    present. *)
Definition precipitation_rules : list Rule :=
  [ ([["thunder"]; ["storm"]],
     ("extreme", "Thunderstorm / lightning risk", Some "NO OUTDOOR TRAINING"));
    ([["freezing rain"]; ["freezing"; "rain"]],
     ("extreme", "Freezing rain / ice risk", Some "NO OUTDOOR TRAINING"));
    ([["sleet"]; ["ice"]; ["icy"]],
     ("extreme", "Icy conditions", Some "NO OUTDOOR TRAINING"));
    ([["blizzard"]],
     ("extreme", "Blizzard / near-zero visibility", Some "NO OUTDOOR_TRAINING"));
    ([["heavy snow"]],
     ("high", "Heavy snow — visibility & slip risk", None));
    ([["snow"]; ["flurr"]],
     ("moderate", "Snow present — traction/visibility caution", None));
    ([["heavy rain"]; ["torrential"]],
     ("high", "Heavy rain — hypothermia & slip risk", None));
    ([["rain"]; ["shower"]],
     ("moderate", "Rain — wet/hypothermia risk", None));
    ([["drizzle"]; ["light rain"]],
     ("low", "Light rain / drizzle", None));
    ([["fog"]; ["mist"]],
     ("moderate", "Fog / reduced visibility", None)) ].

Definition no_hazard : string * string * option string :=
  ("low", "No precipitation hazards", None).

(** Splits on the first test of an [if] chain at the head of the goal. *)
Ltac split_if :=
  match goal with
  | |- (if ?b then _ else _) = _ -> _ => destruct b eqn:?
  | |- (if ?b then _ else _) = _ => destruct b eqn:?
  end.

(** The heat category table of section 4.2 with half-open bands. *)
Definition heat_category_table (wbgt_f : R) : string * Z :=
  if wbgt_f <? 78 then ("Below White", 1%Z)
  else if wbgt_f <? 82 then ("White (Cat 1)", 1%Z)
  else if wbgt_f <? 85 then ("Green (Cat 2)", 2%Z)
  else if wbgt_f <? 88 then ("Yellow (Cat 3)", 3%Z)
  else if wbgt_f <? 90 then ("Red (Cat 4)", 4%Z)
  else ("Black (Cat 5)", 5%Z).

(** The decisions [final_training_decision] can word itself. *)
Definition decisions : list string :=
  [ "NO OUTDOOR TRAINING — EXTREME COLD";
    "MOVE TRAINING INDOORS / HIGH COLD RISK";
    "LIMIT OUTDOOR TRAINING / USE INDOORS WHEN POSSIBLE (COLD CAUTION)";
    "LIMIT OUTDOOR TRAINING / USE INDOORS WHEN POSSIBLE (PRECIPITATION)";
    "NO OUTDOOR TRAINING — EXTREME HEAT (BLACK FLAG)";
    "LIMIT OUTDOOR TRAINING / USE INDOORS WHEN POSSIBLE (HEAT)";
    "TRAIN OUTDOORS WITH CAUTION (HEAT)";
    "TRAIN OUTDOORS (NO RESTRICTIONS)" ].

(** How the uniform level goes with the final decision. *)
Definition decision_matches_uniform (final : string) (level : Z) : Prop :=
  (final = "NO OUTDOOR TRAINING — EXTREME COLD" -> level = 3%Z) /\
  (final = "MOVE TRAINING INDOORS / HIGH COLD RISK" -> level = 2%Z) /\
  (final = "LIMIT OUTDOOR TRAINING / USE INDOORS WHEN POSSIBLE (COLD CAUTION)" ->
   level = 2%Z) /\
  (final = "NO OUTDOOR TRAINING — EXTREME HEAT (BLACK FLAG)" -> level = 3%Z) /\
  (final = "LIMIT OUTDOOR TRAINING / USE INDOORS WHEN POSSIBLE (HEAT)" ->
   level = 2%Z) /\
  (final = "TRAIN OUTDOORS WITH CAUTION (HEAT)" -> level = 1%Z) /\
  (final = "TRAIN OUTDOORS (NO RESTRICTIONS)" -> (0 <= level <= 1)%Z).

(** The test of rule 2, [wbgt_applicable and heat_cat_num is not None]. *)
Definition heat_rule_applies (wbgt_applicable : bool) (heat_cat_num : option Z)
  : bool :=
  wbgt_applicable && match heat_cat_num with Some _ => true | None => false end.

(** The test of rule 3, [wind_chill_f is not None]. *)
Definition wind_chill_rule_applies (wind_chill : option R) : bool :=
  match wind_chill with Some _ => true | None => false end.

(** * Properties *)

(** ** Float comparisons: each test decides the order fact it names *)

Module PyFloatFacts.

Import PyFloat.

Lemma leb_true (x y : R) : leb x y = true <-> x <= y.
Proof. unfold leb; destruct (Rle_dec x y); split; intros; auto; discriminate. Qed.

Lemma leb_false (x y : R) : leb x y = false <-> y < x.
Proof.
  unfold leb; destruct (Rle_dec x y); split; intros; auto; try discriminate; lra.
Qed.

Lemma ltb_true (x y : R) : ltb x y = true <-> x < y.
Proof. unfold ltb; destruct (Rlt_dec x y); split; intros; auto; discriminate. Qed.

Lemma ltb_false (x y : R) : ltb x y = false <-> y <= x.
Proof.
  unfold ltb; destruct (Rlt_dec x y); split; intros; auto; try discriminate; lra.
Qed.

Lemma gtb_true (x y : R) : gtb x y = true <-> x > y.
Proof. unfold gtb; rewrite ltb_true; lra. Qed.

Lemma gtb_false (x y : R) : gtb x y = false <-> x <= y.
Proof. unfold gtb; apply ltb_false. Qed.

End PyFloatFacts.

(** Replaces each float test that [lra] can settle by its outcome. *)
Ltac float_eval :=
  repeat match goal with
  | |- context [?x <=? ?y] =>
      first [ replace (x <=? y) with true by (symmetry; apply PyFloatFacts.leb_true; lra)
            | replace (x <=? y) with false by (symmetry; apply PyFloatFacts.leb_false; lra) ]
  | |- context [?x <? ?y] =>
      first [ replace (x <? y) with true by (symmetry; apply PyFloatFacts.ltb_true; lra)
            | replace (x <? y) with false by (symmetry; apply PyFloatFacts.ltb_false; lra) ]
  | |- context [?x >? ?y] =>
      first [ replace (x >? y) with true by (symmetry; apply PyFloatFacts.gtb_true; lra)
            | replace (x >? y) with false by (symmetry; apply PyFloatFacts.gtb_false; lra) ]
  end.

(** ** The power [V ** 0.16]

    [V ** 0.16] is the 25th root of [V ^ 4]; rational bounds on it come
    from comparing 25th powers. *)

Section Power016.

Variable V : R.
Hypothesis V_pos : 0 < V.

Lemma Rpower_016_pow25 : Rpower V 0.16 ^ 25 = V ^ 4.
Proof.
  rewrite <- (Rpower_pow 25) by apply exp_pos.
  rewrite Rpower_mult.
  replace (0.16 * INR 25) with (INR 4) by (simpl; lra).
  now apply Rpower_pow.
Qed.

Lemma Rpower_016_lower (lo : R) : 0 <= lo -> lo ^ 25 < V ^ 4 -> lo < Rpower V 0.16.
Proof.
  intros Hlo Hpow.
  destruct (Rlt_le_dec lo (Rpower V 0.16)) as [Hlt | Hge]; [exact Hlt | exfalso].
  assert (Hle : Rpower V 0.16 ^ 25 <= lo ^ 25).
  { apply pow_incr; split; [left; apply exp_pos | exact Hge]. }
  rewrite Rpower_016_pow25 in Hle; lra.
Qed.

Lemma Rpower_016_upper (hi : R) : 0 <= hi -> V ^ 4 < hi ^ 25 -> Rpower V 0.16 < hi.
Proof.
  intros Hhi Hpow.
  destruct (Rlt_le_dec (Rpower V 0.16) hi) as [Hlt | Hge]; [exact Hlt | exfalso].
  assert (Hle : hi ^ 25 <= Rpower V 0.16 ^ 25).
  { apply pow_incr; split; [exact Hhi | exact Hge]. }
  rewrite Rpower_016_pow25 in Hle; lra.
Qed.

End Power016.

Lemma Rpower_10_016 : 1.445 < Rpower 10 0.16 < 1.446.
Proof.
  split.
  - apply Rpower_016_lower; lra.
  - apply Rpower_016_upper; lra.
Qed.

Lemma Rpower_15_016 : 1.5 < Rpower 15 0.16 < 1.6.
Proof.
  split.
  - apply Rpower_016_lower; lra.
  - apply Rpower_016_upper; lra.
Qed.

(** ** Unit conversions *)

(** C9: over the reals the two conversions are inverse to each other:
    [f_to_c (c_to_f x) = x] for every [x], and the other way round. *)
Theorem f_to_c_c_to_f_roundtrip :
  forall x : R, f_to_c (c_to_f x) = x /\ c_to_f (f_to_c x) = x.
Proof.
  intro x; unfold f_to_c, c_to_f; split; lra.
Qed.

(** ** Wind chill *)

Lemma wind_chill_f_absent (T V : R) :
  T > 50 \/ V <= 3 -> wind_chill_f T V = None.
Proof.
  intros [H | H]; unfold wind_chill_f.
  - apply PyFloatFacts.gtb_true in H; now rewrite H.
  - apply PyFloatFacts.leb_true in H; rewrite H; now rewrite orb_true_r.
Qed.

Lemma wind_chill_f_defined (T V : R) :
  T <= 50 -> V > 3 -> wind_chill_f T V = Some (wind_chill_formula T V).
Proof.
  intros HT HV; unfold wind_chill_f.
  apply PyFloatFacts.gtb_false in HT; rewrite HT.
  assert (HV' : (V <=? 3) = false) by (apply PyFloatFacts.leb_false; lra).
  now rewrite HV'.
Qed.

Lemma wind_chill_10_15 :
  exists w, wind_chill_f 10 15 = Some w /\ -20 < w < 0.
Proof.
  exists (wind_chill_formula 10 15); split.
  - apply wind_chill_f_defined; lra.
  - unfold wind_chill_formula; pose proof Rpower_15_016; lra.
Qed.

(** C5: the wind chill is absent exactly when the temperature is above 50 or
    the wind is at most 3; everywhere else it is the formula, unclamped, and
    it does take negative values. *)
Theorem wind_chill_f_spec :
  (forall T V : R,
     (wind_chill_f T V = None <-> T > 50 \/ V <= 3) /\
     (T <= 50 -> V > 3 ->
      wind_chill_f T V =
        Some (35.74 + 0.6215 * T - 35.75 * Rpower V 0.16
              + 0.4275 * T * Rpower V 0.16))) /\
  (exists T V w, wind_chill_f T V = Some w /\ w < 0).
Proof.
  split.
  - intros T V; split.
    + split; [| apply wind_chill_f_absent].
      intro Hnone.
      destruct (Rlt_le_dec 50 T) as [HT | HT]; [left; lra |].
      destruct (Rle_lt_dec V 3) as [HV | HV]; [now right |].
      rewrite wind_chill_f_defined in Hnone by lra; discriminate.
    + intros HT HV; now apply wind_chill_f_defined.
  - destruct wind_chill_10_15 as [w [Hw Hrange]].
    exists 10, 15, w; split; [exact Hw | lra].
Qed.

Lemma wind_chill_f_spec_witness :
  10 <= 50 /\ 15 > 3 /\
  wind_chill_f 10 15 =
    Some (35.74 + 0.6215 * 10 - 35.75 * Rpower 15 0.16
          + 0.4275 * 10 * Rpower 15 0.16).
Proof.
  assert (H1 : 10 <= 50) by lra.
  assert (H2 : 15 > 3) by lra.
  split; [exact H1 | split; [exact H2 |]].
  exact (proj2 (proj1 wind_chill_f_spec 10 15) H1 H2).
Defined.

Lemma wind_chill_30_10 :
  exists w, wind_chill_f 30 10 = Some w /\ 21.2 < w < 21.3.
Proof.
  exists (wind_chill_formula 30 10); split.
  - apply wind_chill_f_defined; lra.
  - unfold wind_chill_formula; pose proof Rpower_10_016; lra.
Qed.

(** C8, as the code has it: [wind_chill_f 55 10] and [wind_chill_f 30 2]
    are absent, and [wind_chill_f 30 10] is defined and within 0.1 of
    21.2 degrees. *)
Theorem wind_chill_f_examples :
  wind_chill_f 55 10 = None /\
  wind_chill_f 30 2 = None /\
  exists w, wind_chill_f 30 10 = Some w /\ Rabs (w - 21.2) <= 0.1.
Proof.
  split; [apply wind_chill_f_absent; lra |].
  split; [apply wind_chill_f_absent; lra |].
  destruct wind_chill_30_10 as [w [Hw Hrange]].
  exists w; split; [exact Hw |].
  apply Rabs_le; lra.
Qed.

(** C8, as the specification words it, fails: [wind_chill_f 30 10] is not
    within 0.1 of 16.0 degrees. *)
Lemma wind_chill_f_30_10_not_16 :
  ~ (wind_chill_f 55 10 = None /\
     wind_chill_f 30 2 = None /\
     exists w, wind_chill_f 30 10 = Some w /\ Rabs (w - 16.0) <= 0.1).
Proof.
  intros [_ [_ [w [Hw Habs]]]].
  destruct wind_chill_30_10 as [w' [Hw' Hrange]].
  rewrite Hw' in Hw; injection Hw as <-.
  pose proof (Rle_abs (w' - 16.0)) as Hle; lra.
Qed.

(** ** Heat category *)

(** On the closed bands of the source the table is met. *)
Lemma heat_category_closed_bands (x : R) :
  (x < 78 -> heat_category_from_wbgt_f x = ("Below White", 1%Z)) /\
  (78 <= x <= 81.9 -> heat_category_from_wbgt_f x = ("White (Cat 1)", 1%Z)) /\
  (82 <= x <= 84.9 -> heat_category_from_wbgt_f x = ("Green (Cat 2)", 2%Z)) /\
  (85 <= x <= 87.9 -> heat_category_from_wbgt_f x = ("Yellow (Cat 3)", 3%Z)) /\
  (88 <= x <= 89.9 -> heat_category_from_wbgt_f x = ("Red (Cat 4)", 4%Z)) /\
  (90 <= x -> heat_category_from_wbgt_f x = ("Black (Cat 5)", 5%Z)).
Proof.
  unfold heat_category_from_wbgt_f.
  repeat split; intros H; float_eval; reflexivity.
Qed.

(** Between two bands no test succeeds and the last [return] is reached. *)
Lemma heat_category_between_bands (x : R) :
  81.9 < x < 82 \/ 84.9 < x < 85 \/ 87.9 < x < 88 \/ 89.9 < x < 90 ->
  heat_category_from_wbgt_f x = ("Black (Cat 5)", 5%Z).
Proof.
  unfold heat_category_from_wbgt_f.
  intros [H | [H | [H | H]]]; float_eval; reflexivity.
Qed.

(** C1 at 81.95: the code answers Black (Cat 5), severity 5, where the
    half-open table has White (Cat 1), severity 1; at 82.0 it answers
    Green (Cat 2), severity 2, so the severity drops as WBGT rises. *)
Theorem heat_category_at_81_95 :
  heat_category_from_wbgt_f 81.95 = ("Black (Cat 5)", 5%Z) /\
  heat_category_from_wbgt_f 81.9 = ("White (Cat 1)", 1%Z) /\
  heat_category_from_wbgt_f 82.0 = ("Green (Cat 2)", 2%Z).
Proof.
  unfold heat_category_from_wbgt_f.
  repeat split; float_eval; reflexivity.
Qed.

(** ** PT uniform *)

Lemma recommend_pt_uniform_non_numeric :
  recommend_pt_uniform PyNonNumeric = "Standard PT uniform".
Proof. reflexivity. Qed.

(** On the closed bands of the docstring the labels are met. *)
Lemma recommend_pt_uniform_closed_bands (t : R) :
  (t > 80 -> recommend_pt_uniform (PyNumber t) = "Short-sleeve shirt + shorts") /\
  (60 <= t <= 80 ->
   recommend_pt_uniform (PyNumber t)
   = "Short-sleeve shirt + shorts (light jacket optional)") /\
  (40 <= t <= 59 -> recommend_pt_uniform (PyNumber t) = "Long-sleeve shirt + pants") /\
  (20 <= t <= 39 ->
   recommend_pt_uniform (PyNumber t) = "Sweats + jacket (+ hat optional)") /\
  (t < 20 ->
   recommend_pt_uniform (PyNumber t)
   = "Full cold-weather PT gear (sweats, gloves, hat)").
Proof.
  unfold recommend_pt_uniform, py_float.
  repeat split; intros H; float_eval; reflexivity.
Qed.

(** C6 at 59.5 and 39.5: both lie between two bands of the code, and the
    code answers with the label of the band below 20 degrees. *)
Theorem recommend_pt_uniform_at_59_5 :
  recommend_pt_uniform (PyNumber 59.5)
  = "Full cold-weather PT gear (sweats, gloves, hat)" /\
  recommend_pt_uniform (PyNumber 39.5)
  = "Full cold-weather PT gear (sweats, gloves, hat)".
Proof.
  unfold recommend_pt_uniform, py_float.
  split; float_eval; reflexivity.
Qed.

(** ** Strings: what [lower] and [contains] compute *)

Module PyStrFacts.

Import PyStr.

Lemma prefix_iff (p s : string) :
  prefix p s = true <-> exists rest, s = (p ++ rest)%string.
Proof.
  revert s; induction p as [| a p IH]; intros s.
  - split; [intros _; now exists s | intros _; now destruct s].
  - destruct s as [| b s]; simpl.
    + split; [discriminate | intros [rest H]; discriminate].
    + destruct (ascii_dec a b) as [-> | Hneq].
      * rewrite IH; split; intros [rest H]; exists rest; congruence.
      * split; [discriminate | intros [rest H]; congruence].
Qed.

(** [contains sub s] holds exactly when [sub] occurs in [s]. *)
Lemma contains_iff (sub s : string) :
  contains sub s = true <->
  exists before after, s = (before ++ sub ++ after)%string.
Proof.
  induction s as [| c s IH]; cbn [contains].
  - rewrite orb_false_r, prefix_iff; split.
    + intros [rest H]; now exists EmptyString, rest.
    + intros [[| x before] [after H]]; [now exists after | discriminate].
  - rewrite orb_true_iff, prefix_iff, IH; split.
    + intros [[rest H] | [before [after H]]].
      * now exists EmptyString, rest.
      * exists (String c before), after; simpl; now rewrite H.
    + intros [[| x before] [after H]].
      * left; now exists after.
      * right; exists before, after; simpl in H; congruence.
Qed.

Lemma lower_app (s t : string) : lower (s ++ t) = (lower s ++ lower t)%string.
Proof. induction s as [| c s IH]; simpl; [reflexivity | now rewrite IH]. Qed.

Lemma lower_char_idempotent (c : ascii) : lower_char (lower_char c) = lower_char c.
Proof.
  destruct c as [[] [] [] [] [] [] [] []]; reflexivity.
Qed.

Lemma lower_idempotent (s : string) : lower (lower s) = lower s.
Proof.
  induction s as [| c s IH]; simpl; [reflexivity |].
  now rewrite lower_char_idempotent, IH.
Qed.

(** A keyword written in any case inside the text is found in its lowered
    form. *)
Lemma contains_lower (kw before word after : string) :
  lower word = kw -> contains kw (lower (before ++ word ++ after)) = true.
Proof.
  intros <-; apply contains_iff.
  exists (lower before), (lower after); now rewrite !lower_app.
Qed.

End PyStrFacts.

Lemma interpret_condition_table (cond_text : option string) :
  interpret_condition cond_text
  = first_match precipitation_rules no_hazard
      (PyStr.lower (PyStr.or_empty cond_text)).
Proof.
  unfold interpret_condition, precipitation_rules, no_hazard.
  cbn [first_match rule_matches existsb forallb fst snd].
  now rewrite ?orb_false_r, ?andb_true_r, ?orb_assoc.
Qed.

Lemma interpret_condition_extreme (cond_text : option string) note ov :
  interpret_condition cond_text = ("extreme", note, ov) ->
  ov = Some "NO OUTDOOR TRAINING" \/ ov = Some "NO OUTDOOR_TRAINING".
Proof.
  unfold interpret_condition; cbv beta zeta.
  repeat (split_if;
          [intros H; first [discriminate H | inversion H; auto] |]).
  intros H; discriminate H.
Qed.

Example interpret_snow :
  interpret_condition (Some "Snow")
  = ("moderate", "Snow present — traction/visibility caution", None).
Proof. reflexivity. Qed.

(** First match wins: "light rain" contains "rain", and the rain rule comes
    before the drizzle / light rain rule. *)
Example interpret_light_rain :
  interpret_condition (Some "Light rain")
  = ("moderate", "Rain — wet/hypothermia risk", None).
Proof. reflexivity. Qed.

Lemma interpret_condition_freezing_rain (cond_text : option string) :
  let c := PyStr.lower (PyStr.or_empty cond_text) in
  PyStr.contains "freezing rain" c = true ->
  if PyStr.contains "thunder" c || PyStr.contains "storm" c then
    interpret_condition cond_text
    = ("extreme", "Thunderstorm / lightning risk", Some "NO OUTDOOR TRAINING")
  else
    interpret_condition cond_text
    = ("extreme", "Freezing rain / ice risk", Some "NO OUTDOOR TRAINING").
Proof.
  intros c Hfr; unfold interpret_condition; cbv beta zeta; fold c.
  destruct (PyStr.contains "thunder" c || PyStr.contains "storm" c);
    [reflexivity |].
  now rewrite Hfr.
Qed.

(** C4: the interpreter is the first match over its keyword rules taken in
    the order of section 4.2, it looks only at the lowered text, and a text
    containing "freezing rain" is extreme with a hard override, never the
    moderate of the generic rain rule; without thunder or storm it is the
    freezing-rain rule that answers. *)
Theorem interpret_condition_priority_order :
  (forall cond_text : option string,
     interpret_condition cond_text
     = first_match precipitation_rules no_hazard
         (PyStr.lower (PyStr.or_empty cond_text))) /\
  (forall s t : string,
     PyStr.lower s = PyStr.lower t ->
     interpret_condition (Some s) = interpret_condition (Some t)) /\
  (forall cond_text : option string,
     PyStr.contains "freezing rain" (PyStr.lower (PyStr.or_empty cond_text)) = true ->
     (exists note,
        interpret_condition cond_text
        = ("extreme", note, Some "NO OUTDOOR TRAINING")) /\
     fst (fst (interpret_condition cond_text)) <> "moderate" /\
     (PyStr.contains "thunder" (PyStr.lower (PyStr.or_empty cond_text)) = false ->
      PyStr.contains "storm" (PyStr.lower (PyStr.or_empty cond_text)) = false ->
      interpret_condition cond_text
      = ("extreme", "Freezing rain / ice risk", Some "NO OUTDOOR TRAINING"))).
Proof.
  split; [exact interpret_condition_table |].
  split.
  - intros s t Hlow; unfold interpret_condition; simpl PyStr.or_empty.
    now rewrite Hlow.
  - intros cond_text Hfr.
    pose proof (interpret_condition_freezing_rain cond_text Hfr) as H.
    cbv zeta in H.
    destruct (PyStr.contains "thunder" _) eqn:Hth;
      destruct (PyStr.contains "storm" _) eqn:Hst; simpl in H; rewrite H;
      (split; [eexists; reflexivity | split; [discriminate |]]);
      intros; try discriminate; reflexivity.
Qed.

Lemma interpret_condition_priority_order_witness :
  PyStr.contains "freezing rain"
    (PyStr.lower (PyStr.or_empty (Some "Light Freezing Rain"))) = true /\
  interpret_condition (Some "Light Freezing Rain")
  = ("extreme", "Freezing rain / ice risk", Some "NO OUTDOOR TRAINING").
Proof.
  split; [reflexivity |].
  exact (proj2 (proj2 (proj2 (proj2 interpret_condition_priority_order)
                         (Some "Light Freezing Rain") eq_refl))
           eq_refl eq_refl).
Defined.

(** Whatever the case of the letters, "freezing rain" inside the text makes
    the result extreme. *)
Corollary freezing_rain_any_case (before word after : string) :
  PyStr.lower word = "freezing rain" ->
  fst (fst (interpret_condition (Some (before ++ word ++ after)%string)))
  = "extreme".
Proof.
  intros Hword.
  pose proof (PyStrFacts.contains_lower _ before word after Hword) as Hc.
  pose proof (interpret_condition_freezing_rain
                (Some (before ++ word ++ after)%string) Hc) as H.
  cbv zeta in H.
  destruct (_ || _) in H; now rewrite H.
Qed.

(** ** Final decision *)

Lemma final_decision_override (s : string) :
  s <> "" ->
  forall T wc h app lvl,
    final_training_decision T wc h app (Some s) lvl = s.
Proof.
  intros Hs T wc h app lvl; destruct s as [| c s]; [congruence | reflexivity].
Qed.

(** C3: a text classified as extreme carries a non-empty override, and the
    final decision is that override, whatever the wind chill, the
    precipitation level and the heat category are. *)
Theorem extreme_override_returned_verbatim :
  forall (cond_text : option string) (note : string) (ov : option string),
    interpret_condition cond_text = ("extreme", note, ov) ->
    exists s : string,
      ov = Some s /\ s <> "" /\
      forall (T : R) (wc : option R) (h : option Z) (app : bool) (lvl : string),
        final_training_decision T wc h app ov lvl = s.
Proof.
  intros cond_text note ov H.
  destruct (interpret_condition_extreme cond_text note ov H) as [-> | ->];
    eexists; (split; [reflexivity | split; [discriminate |]]);
    apply final_decision_override; discriminate.
Qed.

Lemma extreme_override_returned_verbatim_witness :
  exists s : string,
    Some "NO OUTDOOR TRAINING" = Some s /\ s <> "" /\
    forall (T : R) (wc : option R) (h : option Z) (app : bool) (lvl : string),
      final_training_decision T wc h app (Some "NO OUTDOOR TRAINING") lvl = s.
Proof.
  exact (extreme_override_returned_verbatim (Some "Thunderstorm")
           "Thunderstorm / lightning risk" (Some "NO OUTDOOR TRAINING") eq_refl).
Defined.

(** C10: a text with "blizzard" that no earlier rule matches is extreme with
    the override "NO OUTDOOR_TRAINING"; that string differs from the
    "NO OUTDOOR TRAINING" of every other override, and the final decision
    returns it unchanged. *)
Theorem blizzard_override_has_underscore :
  (forall cond_text : option string,
     let c := PyStr.lower (PyStr.or_empty cond_text) in
     PyStr.contains "blizzard" c = true ->
     PyStr.contains "thunder" c = false ->
     PyStr.contains "storm" c = false ->
     PyStr.contains "freezing rain" c = false ->
     PyStr.contains "freezing" c && PyStr.contains "rain" c = false ->
     PyStr.contains "sleet" c = false ->
     PyStr.contains "ice" c = false ->
     PyStr.contains "icy" c = false ->
     interpret_condition cond_text
     = ("extreme", "Blizzard / near-zero visibility", Some "NO OUTDOOR_TRAINING")) /\
  "NO OUTDOOR_TRAINING" <> "NO OUTDOOR TRAINING" /\
  (forall (cond_text : option string) (level note ov : string),
     interpret_condition cond_text = (level, note, Some ov) ->
     note <> "Blizzard / near-zero visibility" ->
     ov = "NO OUTDOOR TRAINING") /\
  (forall (T : R) (wc : option R) (h : option Z) (app : bool) (lvl : string),
     final_training_decision T wc h app (Some "NO OUTDOOR_TRAINING") lvl
     = "NO OUTDOOR_TRAINING").
Proof.
  split; [| split; [discriminate | split]].
  - intros cond_text c Hb Hth Hst Hfr Hfr2 Hsl Hice Hicy.
    unfold interpret_condition; cbv beta zeta; fold c.
    now rewrite Hth, Hst, Hfr, Hfr2, Hsl, Hice, Hicy, Hb.
  - intros cond_text level note ov.
    unfold interpret_condition; cbv beta zeta.
    repeat (split_if;
            [intros H; first [discriminate H | inversion H; congruence] |]).
    intros H; discriminate H.
  - intros; apply final_decision_override; discriminate.
Qed.

Lemma blizzard_override_has_underscore_witness :
  interpret_condition (Some "Blizzard")
  = ("extreme", "Blizzard / near-zero visibility", Some "NO OUTDOOR_TRAINING").
Proof.
  exact (proj1 blizzard_override_has_underscore (Some "Blizzard")
           eq_refl eq_refl eq_refl eq_refl eq_refl eq_refl eq_refl eq_refl).
Defined.

(** ** The route: what each field of the guidance is *)

Lemma dashboard_fields (temp_f wind_mph wbgt_f : R) (weather_text : option string) :
  let g := dashboard temp_f wind_mph wbgt_f weather_text in
  wc g = wind_chill_f temp_f wind_mph /\
  wbgt_applicable g = (temp_f >? WBGT_CUTOFF_F) /\
  heat_num g =
    (if temp_f >? WBGT_CUTOFF_F
     then Some (snd (heat_category_from_wbgt_f wbgt_f)) else None) /\
  precip_level g = fst (fst (interpret_condition weather_text)) /\
  precip_override g = snd (interpret_condition weather_text) /\
  (uniform g, uniform_level g) =
    recommend_uniform_option_a temp_f (wc g) (heat_num g) (wbgt_applicable g)
      (precip_level g) /\
  final_dec g =
    final_training_decision temp_f (wc g) (heat_num g) (wbgt_applicable g)
      (precip_override g) (precip_level g).
Proof.
  unfold dashboard.
  destruct (temp_f >? WBGT_CUTOFF_F);
    destruct (heat_category_from_wbgt_f wbgt_f) as [l n];
    destruct (interpret_condition weather_text) as [[lvl note] ov];
    destruct (recommend_uniform_option_a _ _ _ _ _) as [u ul] eqn:Hu;
    cbn; rewrite ?Hu; repeat split.
Qed.

Lemma final_decision_cold (T w : R) (h : option Z) (app : bool)
    (ov : option string) (lvl : string) :
  PyStr.truthy ov = false ->
  (w <= -20 ->
   final_training_decision T (Some w) h app ov lvl
   = "NO OUTDOOR TRAINING — EXTREME COLD") /\
  (-20 < w <= 0 ->
   final_training_decision T (Some w) h app ov lvl
   = "MOVE TRAINING INDOORS / HIGH COLD RISK") /\
  (0 < w <= 20 ->
   final_training_decision T (Some w) h app ov lvl
   = "LIMIT OUTDOOR TRAINING / USE INDOORS WHEN POSSIBLE (COLD CAUTION)").
Proof.
  intros Hov; unfold final_training_decision; cbv beta zeta; rewrite Hov.
  repeat split; intros Hw; float_eval; reflexivity.
Qed.

(** C2: with no override and a wind chill of at most 20 the cold decision of
    its band is returned, whatever the precipitation level and the heat
    category; at 10 degrees, 15 mph and "Snow" (moderate, no override) the
    decision is to move indoors; at -20 or below with low precipitation it
    is the extreme-cold one. *)
Theorem cold_decision_before_precipitation_and_heat :
  (forall (T w : R) (h : option Z) (app : bool) (ov : option string)
          (lvl : string),
     PyStr.truthy ov = false ->
     (w <= -20 ->
      final_training_decision T (Some w) h app ov lvl
      = "NO OUTDOOR TRAINING — EXTREME COLD") /\
     (-20 < w <= 0 ->
      final_training_decision T (Some w) h app ov lvl
      = "MOVE TRAINING INDOORS / HIGH COLD RISK") /\
     (0 < w <= 20 ->
      final_training_decision T (Some w) h app ov lvl
      = "LIMIT OUTDOOR TRAINING / USE INDOORS WHEN POSSIBLE (COLD CAUTION)")) /\
  (forall wbgt_f : R,
     let g := dashboard 10 15 wbgt_f (Some "Snow") in
     precip_level g = "moderate" /\
     precip_override g = None /\
     (exists w, wc g = Some w /\ -20 < w <= 0) /\
     final_dec g = "MOVE TRAINING INDOORS / HIGH COLD RISK") /\
  (forall (T w : R) (h : option Z) (app : bool),
     w <= -20 ->
     final_training_decision T (Some w) h app None "low"
     = "NO OUTDOOR TRAINING — EXTREME COLD").
Proof.
  split; [exact final_decision_cold | split].
  - intros wbgt_f g.
    destruct (dashboard_fields 10 15 wbgt_f (Some "Snow"))
      as (Hwc & _ & _ & Hlvl & Hov & _ & Hdec).
    fold g in Hwc, Hlvl, Hov, Hdec.
    rewrite interpret_snow in Hlvl, Hov; simpl in Hlvl, Hov.
    destruct wind_chill_10_15 as [w [Hw Hrange]].
    rewrite Hw in Hwc.
    split; [exact Hlvl | split; [exact Hov | split]].
    + exists w; split; [exact Hwc | lra].
    + rewrite Hdec, Hwc, Hov.
      apply final_decision_cold; [reflexivity | lra].
  - intros T w h app Hw.
    now apply final_decision_cold.
Qed.

Lemma cold_decision_before_precipitation_and_heat_witness :
  -25 <= -20 /\
  final_training_decision 40 (Some (-25)) (Some 5%Z) true (Some "") "high"
  = "NO OUTDOOR TRAINING — EXTREME COLD".
Proof.
  assert (H : -25 <= -20) by lra.
  split; [exact H |].
  exact (proj1 (proj1 cold_decision_before_precipitation_and_heat
                  40 (-25) (Some 5%Z) true (Some "") "high" eq_refl) H).
Defined.

(** ** Option A: the heat rule and the wind-chill rule *)

(** When rule 2 applies it answers: the wind chill and the temperature are
    not looked at. *)
Lemma recommend_uniform_heat_rule (T T' : R) (w w' : option R) (h : option Z)
    (app : bool) (lvl : string) :
  heat_rule_applies app h = true ->
  recommend_uniform_option_a T w h app lvl
  = recommend_uniform_option_a T' w' h app lvl.
Proof.
  unfold heat_rule_applies, recommend_uniform_option_a.
  destruct app, h; simpl; intros H; try discriminate; reflexivity.
Qed.

(** When rule 2 does not apply the heat inputs play no part. *)
Lemma recommend_uniform_heat_rule_skipped (T : R) (w : option R) (h : option Z)
    (app : bool) (lvl : string) :
  heat_rule_applies app h = false ->
  recommend_uniform_option_a T w h app lvl
  = recommend_uniform_option_a T w None false lvl.
Proof.
  unfold heat_rule_applies, recommend_uniform_option_a.
  destruct app, h; simpl; intros H; try discriminate; reflexivity.
Qed.

(** C7: WBGT applicability and a defined wind chill never hold together, so
    on the values the route passes to [recommend_uniform_option_a] the test
    of the heat rule and the test of the wind-chill rule are never both
    true. *)
Theorem heat_rule_and_wind_chill_rule_exclusive :
  (forall T V : R,
     ~ ((T >? WBGT_CUTOFF_F) = true /\ wind_chill_f T V <> None)) /\
  (forall (T V wbgt_f : R) (weather_text : option string),
     let g := dashboard T V wbgt_f weather_text in
     heat_rule_applies (wbgt_applicable g) (heat_num g)
     && wind_chill_rule_applies (wc g) = false).
Proof.
  assert (Hex : forall T V : R,
            (T >? WBGT_CUTOFF_F) = true -> wind_chill_f T V = None).
  { intros T V H; apply wind_chill_f_absent; left.
    apply PyFloatFacts.gtb_true in H; unfold WBGT_CUTOFF_F in H; exact H. }
  split.
  - intros T V [Happ Hdef]; apply Hdef; now apply Hex.
  - intros T V wbgt_f weather_text g.
    destruct (dashboard_fields T V wbgt_f weather_text)
      as (Hwc & Happ & _).
    fold g in Hwc, Happ; rewrite Hwc, Happ.
    destruct (T >? WBGT_CUTOFF_F) eqn:HT; [| reflexivity].
    rewrite (Hex T V HT); unfold wind_chill_rule_applies.
    now rewrite andb_false_r.
Qed.

(** * Further properties of the code *)

(** ** Built-ins: rounding and truncation *)

Module PyMathFacts.

Import PyMath.

Lemma Int_part_IZR (k : Z) : Int_part (IZR k) = k.
Proof. symmetry; apply Int_part_spec; lra. Qed.

Lemma round_half_even_IZR (k : Z) : round_half_even (IZR k) = k.
Proof.
  unfold round_half_even; rewrite Int_part_IZR.
  replace (IZR k - IZR k <? 1 / 2) with true; [reflexivity |].
  symmetry; apply PyFloatFacts.ltb_true; lra.
Qed.

(** [round(x, 1)] is a whole number of tenths. *)
Lemma round_1_tenths (x : R) : exists k : Z, round x 1 = IZR k / 10.
Proof.
  exists (round_half_even (x * 10 ^ 1)); unfold round.
  replace (10 ^ 1) with 10 by (simpl; lra); reflexivity.
Qed.

(** A whole number of tenths is left as it is. *)
Lemma round_1_of_tenths (k : Z) : round (IZR k / 10) 1 = IZR k / 10.
Proof.
  unfold round.
  replace (10 ^ 1) with 10 by (simpl; lra).
  replace (IZR k / 10 * 10) with (IZR k) by lra.
  now rewrite round_half_even_IZR.
Qed.

Lemma int_IZR (k : Z) : int (IZR k) = k.
Proof.
  unfold int.
  destruct (0 <=? IZR k); [apply Int_part_IZR |].
  rewrite <- opp_IZR, Int_part_IZR; lia.
Qed.

End PyMathFacts.

(** ** Wet bulb and WBGT *)

Lemma clamp_humidity (rh : R) :
  (rh <= 0 -> Rmax 0.0 (Rmin 100.0 rh) = 0) /\
  (0 <= rh <= 100 -> Rmax 0.0 (Rmin 100.0 rh) = rh) /\
  (100 <= rh -> Rmax 0.0 (Rmin 100.0 rh) = 100).
Proof.
  unfold Rmax, Rmin.
  repeat split; intros H;
    destruct (Rle_dec 100.0 rh); destruct (Rle_dec 0.0 _); lra.
Qed.

Lemma clamp_humidity_range (rh : R) : 0 <= Rmax 0.0 (Rmin 100.0 rh) <= 100.
Proof.
  unfold Rmax, Rmin.
  destruct (Rle_dec 100.0 rh); destruct (Rle_dec 0.0 _); lra.
Qed.

(** X1: The humidity is clamped to 0..100 before use: a reading below 0 counts
    as 0, a reading above 100 as 100. *)
Theorem wet_bulb_clamps_humidity :
  forall Tc rh : R,
    (rh <= 0 -> approx_natural_wet_bulb Tc rh = approx_natural_wet_bulb Tc 0) /\
    (100 <= rh ->
     approx_natural_wet_bulb Tc rh = approx_natural_wet_bulb Tc 100).
Proof.
  intros Tc rh; unfold approx_natural_wet_bulb; cbv zeta; split; intros H.
  - rewrite (proj1 (clamp_humidity rh)) by exact H.
    rewrite (proj1 (clamp_humidity 0)) by lra; reflexivity.
  - rewrite (proj2 (proj2 (clamp_humidity rh))) by exact H.
    rewrite (proj2 (proj2 (clamp_humidity 100))) by lra; reflexivity.
Qed.

Lemma wet_bulb_clamps_humidity_witness :
  approx_natural_wet_bulb 25 (-5) = approx_natural_wet_bulb 25 0 /\
  approx_natural_wet_bulb 25 120 = approx_natural_wet_bulb 25 100.
Proof.
  split.
  - apply (proj1 (wet_bulb_clamps_humidity 25 (-5))); lra.
  - apply (proj2 (wet_bulb_clamps_humidity 25 120)); lra.
Defined.

Lemma wet_bulb_increasing (Tc1 Tc2 rh : R) :
  Tc1 < Tc2 -> approx_natural_wet_bulb Tc1 rh < approx_natural_wet_bulb Tc2 rh.
Proof.
  intros Hlt; unfold approx_natural_wet_bulb; cbv zeta.
  pose proof (clamp_humidity_range rh) as Hr.
  set (r := Rmax 0.0 (Rmin 100.0 rh)) in *.
  assert (Ha : 0 < atan (0.151977 * sqrt (r + 8.313659))).
  { rewrite <- atan_0; apply atan_increasing.
    apply Rmult_lt_0_compat; [lra | apply sqrt_lt_R0; lra]. }
  assert (Hb : atan (Tc1 + r) < atan (Tc2 + r)) by (apply atan_increasing; lra).
  assert (Hc : Tc1 * atan (0.151977 * sqrt (r + 8.313659))
               < Tc2 * atan (0.151977 * sqrt (r + 8.313659))).
  { apply Rmult_lt_compat_r; assumption. }
  lra.
Qed.

(** X2: Warmer air gives a higher wet bulb and a higher WBGT, in Celsius and,
    fed from Fahrenheit as the weekly slide does, in Fahrenheit. *)
Theorem wbgt_increases_with_temperature :
  forall (rh : R) (sunny : bool) (globe_offset_c : R),
    (forall Tc1 Tc2 : R,
       Tc1 < Tc2 ->
       approx_natural_wet_bulb Tc1 rh < approx_natural_wet_bulb Tc2 rh /\
       fst (fst (approx_wbgt Tc1 rh sunny globe_offset_c))
       < fst (fst (approx_wbgt Tc2 rh sunny globe_offset_c))) /\
    (forall Tf1 Tf2 : R,
       Tf1 < Tf2 ->
       c_to_f (fst (fst (approx_wbgt (f_to_c Tf1) rh sunny globe_offset_c)))
       < c_to_f (fst (fst (approx_wbgt (f_to_c Tf2) rh sunny globe_offset_c)))).
Proof.
  intros rh sunny off.
  assert (Hc : forall Tc1 Tc2 : R,
             Tc1 < Tc2 ->
             fst (fst (approx_wbgt Tc1 rh sunny off))
             < fst (fst (approx_wbgt Tc2 rh sunny off))).
  { intros Tc1 Tc2 Hlt; unfold approx_wbgt; cbn [fst].
    pose proof (wet_bulb_increasing Tc1 Tc2 rh Hlt).
    destruct sunny; lra. }
  split.
  - intros Tc1 Tc2 Hlt; split; [now apply wet_bulb_increasing | now apply Hc].
  - intros Tf1 Tf2 Hlt.
    assert (Hf : f_to_c Tf1 < f_to_c Tf2) by (unfold f_to_c; lra).
    pose proof (Hc _ _ Hf) as H; unfold c_to_f; lra.
Qed.

Lemma wbgt_increases_with_temperature_witness :
  c_to_f (fst (fst (approx_wbgt (f_to_c 80) 50 true 3.0)))
  < c_to_f (fst (fst (approx_wbgt (f_to_c 95) 50 true 3.0))).
Proof.
  apply (proj2 (wbgt_increases_with_temperature 50 true 3.0) 80 95); lra.
Defined.

(** X3: The WBGT lies between the wet bulb and the globe temperature; the globe
    is the air temperature, or that plus the offset when sunny, which the wet
    bulb ignores, so that sun adds 0.3 times the offset to the WBGT (0.9
    degrees with the default offset of 3.0). *)
Theorem wbgt_between_wet_bulb_and_globe :
  forall (Tc rh globe_offset_c : R) (sunny : bool),
    let '(wbgt_c, Tw, Tg) := approx_wbgt Tc rh sunny globe_offset_c in
    Rmin Tw Tg <= wbgt_c <= Rmax Tw Tg /\
    Tw = snd (fst (approx_wbgt Tc rh (negb sunny) globe_offset_c)) /\
    fst (fst (approx_wbgt Tc rh true globe_offset_c))
    = fst (fst (approx_wbgt Tc rh false globe_offset_c)) + 0.3 * globe_offset_c /\
    fst (fst (approx_wbgt Tc rh true 3.0))
    = fst (fst (approx_wbgt Tc rh false 3.0)) + 0.9.
Proof.
  intros Tc rh off sunny; unfold approx_wbgt; cbn [fst snd].
  repeat split; try lra.
  - unfold Rmin; destruct (Rle_dec _ _); lra.
  - unfold Rmax; destruct (Rle_dec _ _); lra.
Qed.

(** ** Wind chill: order properties *)

Lemma Rpower_016_above_3 (V : R) : 3 < V -> 1.19 < Rpower V 0.16.
Proof.
  intros HV; apply Rpower_016_lower; [lra | lra |].
  assert (H2 : 9 < V * V) by nra.
  assert (H4 : 81 < V ^ 4) by (simpl; nra).
  lra.
Qed.

(** X4: Whenever the wind chill is defined it is below the air temperature. *)
Theorem wind_chill_below_temperature :
  forall T V w : R, wind_chill_f T V = Some w -> w < T.
Proof.
  intros T V w Hw.
  destruct (Rlt_le_dec 50 T) as [HT | HT];
    [rewrite wind_chill_f_absent in Hw by (left; lra); discriminate |].
  destruct (Rle_lt_dec V 3) as [HV | HV];
    [rewrite wind_chill_f_absent in Hw by (right; lra); discriminate |].
  rewrite wind_chill_f_defined in Hw by lra.
  injection Hw as <-; unfold wind_chill_formula.
  pose proof (Rpower_016_above_3 V HV) as Hx.
  assert (Hprod : 0 < (35.75 - 0.4275 * T) * (Rpower V 0.16 - 1.19))
    by (apply Rmult_lt_0_compat; lra).
  lra.
Qed.

Lemma wind_chill_below_temperature_witness :
  exists w : R, wind_chill_f 10 15 = Some w /\ w < 10.
Proof.
  assert (H : wind_chill_f 10 15 = Some (wind_chill_formula 10 15))
    by (apply wind_chill_f_defined; lra).
  exists (wind_chill_formula 10 15).
  split; [exact H | exact (wind_chill_below_temperature 10 15 _ H)].
Defined.

(** X5: Where the wind chill is defined it falls as the wind rises and rises as
    the air warms. *)
Theorem wind_chill_monotone :
  (forall T V1 V2 : R,
     T <= 50 -> 3 < V1 -> V1 < V2 ->
     exists w1 w2 : R,
       wind_chill_f T V1 = Some w1 /\ wind_chill_f T V2 = Some w2 /\ w2 < w1) /\
  (forall T1 T2 V : R,
     T1 < T2 -> T2 <= 50 -> 3 < V ->
     exists w1 w2 : R,
       wind_chill_f T1 V = Some w1 /\ wind_chill_f T2 V = Some w2 /\ w1 < w2).
Proof.
  split.
  - intros T V1 V2 HT HV1 HV.
    exists (wind_chill_formula T V1), (wind_chill_formula T V2).
    split; [apply wind_chill_f_defined; lra |].
    split; [apply wind_chill_f_defined; lra |].
    unfold wind_chill_formula.
    assert (Hx : Rpower V1 0.16 < Rpower V2 0.16)
      by (apply Rlt_Rpower_l; lra).
    assert (Hprod : 0 < (35.75 - 0.4275 * T) * (Rpower V2 0.16 - Rpower V1 0.16))
      by (apply Rmult_lt_0_compat; lra).
    lra.
  - intros T1 T2 V HT HT2 HV.
    exists (wind_chill_formula T1 V), (wind_chill_formula T2 V).
    split; [apply wind_chill_f_defined; lra |].
    split; [apply wind_chill_f_defined; lra |].
    unfold wind_chill_formula.
    pose proof (Rpower_016_above_3 V HV) as Hx.
    assert (Hprod : 0 < (T2 - T1) * (0.6215 + 0.4275 * Rpower V 0.16))
      by (apply Rmult_lt_0_compat; lra).
    lra.
Qed.

Lemma wind_chill_monotone_witness :
  exists w1 w2 : R,
    wind_chill_f 30 10 = Some w1 /\ wind_chill_f 30 15 = Some w2 /\ w2 < w1.
Proof.
  apply (proj1 wind_chill_monotone 30 10 15); lra.
Defined.

(** ** Heat category on WBGT values with one decimal *)

Lemma heat_category_table_monotone (x y : R) :
  x <= y ->
  (snd (heat_category_table x) <= snd (heat_category_table y))%Z.
Proof.
  intros Hxy; unfold heat_category_table.
  repeat match goal with
         | |- context [?a <? ?b] =>
             let H := fresh "H" in
             destruct (a <? b) eqn:H;
             [apply PyFloatFacts.ltb_true in H | apply PyFloatFacts.ltb_false in H]
         end; cbn [snd]; try lia; exfalso; lra.
Qed.

Lemma heat_category_tenths (k : Z) :
  heat_category_from_wbgt_f (IZR k / 10) = heat_category_table (IZR k / 10).
Proof.
  assert (Hk : (k <= 779 \/ 780 <= k <= 819 \/ 820 <= k <= 849 \/
                850 <= k <= 879 \/ 880 <= k <= 899 \/ 900 <= k)%Z) by lia.
  unfold heat_category_from_wbgt_f, heat_category_table.
  destruct Hk as [H | [[H H'] | [[H H'] | [[H H'] | [[H H'] | H]]]]];
    apply IZR_le in H; try apply IZR_le in H'; float_eval; reflexivity.
Qed.

(** X6: The forecast cards and the weekly rows round the WBGT to one decimal
    before they ask for the heat category.  On such a value the category is
    the one of the table with half-open bands, and the severity never falls
    as the value rises. *)
Theorem heat_category_of_rounded_wbgt :
  forall x y : R,
    heat_category_from_wbgt_f (PyMath.round x 1)
    = heat_category_table (PyMath.round x 1) /\
    (PyMath.round x 1 <= PyMath.round y 1 ->
     (snd (heat_category_from_wbgt_f (PyMath.round x 1))
      <= snd (heat_category_from_wbgt_f (PyMath.round y 1)))%Z).
Proof.
  intros x y.
  destruct (PyMathFacts.round_1_tenths x) as [j ->].
  destruct (PyMathFacts.round_1_tenths y) as [k ->].
  rewrite !heat_category_tenths; split; [reflexivity |].
  apply heat_category_table_monotone.
Qed.

Lemma heat_category_of_rounded_wbgt_witness :
  (snd (heat_category_from_wbgt_f (PyMath.round (IZR 819 / 10) 1))
   <= snd (heat_category_from_wbgt_f (PyMath.round (IZR 820 / 10) 1)))%Z.
Proof.
  apply (proj2 (heat_category_of_rounded_wbgt (IZR 819 / 10) (IZR 820 / 10))).
  rewrite !PyMathFacts.round_1_of_tenths; lra.
Defined.

(** ** The condition interpreter: levels, overrides, shadowed keywords *)

Lemma first_match_ind (P : string * string * option string -> Prop)
    (rules : list Rule) (default : string * string * option string) (c : string) :
  P default ->
  (forall r, In r rules -> P (snd r)) ->
  P (first_match rules default c).
Proof.
  intros Hd Hr; induction rules as [| r rules IH]; simpl; [exact Hd |].
  destruct (rule_matches c r).
  - apply Hr; now left.
  - apply IH; intros r' Hin; apply Hr; now right.
Qed.

(** Settles the statement about levels and overrides on one concrete
    result. *)
Ltac level_case :=
  cbn; repeat split; auto 10;
  let H := fresh "H" in
  intros H;
  first [ discriminate H | reflexivity | discriminate
        | exfalso; apply H; reflexivity ].

Lemma interpret_condition_shape (cond_text : option string) :
  let r := interpret_condition cond_text in
  In (fst (fst r)) ["low"; "moderate"; "high"; "extreme"] /\
  (fst (fst r) = "extreme" <-> snd r <> None) /\
  (PyStr.truthy (snd r) = true <-> fst (fst r) = "extreme").
Proof.
  intros r; subst r; rewrite interpret_condition_table.
  apply first_match_ind.
  - level_case.
  - intros rule Hin; unfold precipitation_rules in Hin; cbn [In] in Hin.
    repeat (destruct Hin as [<- | Hin]; [level_case |]).
    contradiction.
Qed.

(** X8: The level is one of low, moderate, high and extreme, and the hard
    override is there exactly when the level is extreme. *)
Theorem interpret_condition_levels :
  forall cond_text : option string,
    let r := interpret_condition cond_text in
    In (fst (fst r)) ["low"; "moderate"; "high"; "extreme"] /\
    (fst (fst r) = "extreme" <-> snd r <> None) /\
    (PyStr.truthy (snd r) = true <-> fst (fst r) = "extreme").
Proof. exact interpret_condition_shape. Qed.

Lemma contains_trans (a b c : string) :
  PyStr.contains a b = true -> PyStr.contains b c = true ->
  PyStr.contains a c = true.
Proof.
  rewrite !PyStrFacts.contains_iff.
  intros (p1 & q1 & ->) (p2 & q2 & ->).
  exists (p2 ++ p1)%string, (q1 ++ q2)%string.
  induction p2 as [| x p2 IH]; simpl.
  - induction p1 as [| y p1 IH1]; simpl.
    + induction a as [| z a IHa]; simpl; [reflexivity | now rewrite IHa].
    + now rewrite IH1.
  - now rewrite IH.
Qed.

(** X9: The keyword "light rain" of the drizzle rule is shadowed by the rain
    rule before it: a text with "light rain" is never classified low, and the
    note "Light rain / drizzle" is only ever given to a text with
    "drizzle". *)
Theorem light_rain_keyword_shadowed :
  forall cond_text : option string,
    let c := PyStr.lower (PyStr.or_empty cond_text) in
    (PyStr.contains "light rain" c = true ->
     fst (fst (interpret_condition cond_text)) <> "low") /\
    (snd (fst (interpret_condition cond_text)) = "Light rain / drizzle" ->
     PyStr.contains "drizzle" c = true).
Proof.
  intros cond_text c.
  assert (Hsub : PyStr.contains "light rain" c = true ->
                 PyStr.contains "rain" c = true).
  { apply contains_trans; reflexivity. }
  destruct (interpret_condition cond_text) as [[lvl note] ov] eqn:E.
  cbn [fst snd]; revert E.
  unfold interpret_condition; cbv beta zeta; fold c.
  destruct (PyStr.contains "rain" c) eqn:Hrain.
  - rewrite ?andb_true_r, ?orb_true_l; cbv beta iota.
    repeat (split_if;
            [intros H; inversion H; split; intros; discriminate |]).
    intros H; inversion H; split; intros; discriminate.
  - assert (Hlr : PyStr.contains "light rain" c = false).
    { destruct (PyStr.contains "light rain" c); [| reflexivity].
      now specialize (Hsub eq_refl). }
    rewrite Hlr, ?andb_false_r, ?orb_false_r, ?orb_false_l.
    repeat (split_if;
            [intros H; inversion H; split; intros;
             first [discriminate | congruence | assumption] |]).
    intros H; inversion H; split; intros; first [discriminate | congruence].
Qed.

Lemma light_rain_keyword_shadowed_witness :
  fst (fst (interpret_condition (Some "Patchy light rain"))) <> "low".
Proof.
  apply (proj1 (light_rain_keyword_shadowed (Some "Patchy light rain")));
    reflexivity.
Defined.

(** ** The final decision: its values and the place of precipitation *)

Lemma final_decision_cases (T : R) (wc : option R) (h : option Z) (app : bool)
    (ov : option string) (lvl : string) :
  (PyStr.truthy ov = true /\
   ov = Some (final_training_decision T wc h app ov lvl)) \/
  (PyStr.truthy ov = false /\
   In (final_training_decision T wc h app ov lvl) decisions).
Proof.
  unfold final_training_decision, decisions.
  destruct (PyStr.truthy ov) eqn:Hov.
  - left; split; [reflexivity |].
    destruct ov as [[| c s] |]; try discriminate Hov; reflexivity.
  - right; split; [reflexivity |].
    destruct wc as [w |], app, h as [n |]; cbv beta zeta iota;
      repeat match goal with
             | |- context [if ?b then _ else _] => destruct b
             end; cbn [In]; tauto.
Qed.

(** X10: The decision is the override when there is a non-empty one, and one of
    eight fixed strings otherwise. *)
Theorem final_decision_values :
  forall (T : R) (wc : option R) (h : option Z) (app : bool)
         (ov : option string) (lvl : string),
    (PyStr.truthy ov = true /\
     ov = Some (final_training_decision T wc h app ov lvl)) \/
    (PyStr.truthy ov = false /\
     In (final_training_decision T wc h app ov lvl) decisions).
Proof. exact final_decision_cases. Qed.

(** X11: High precipitation is asked about before the heat: with no override and
    no wind chill at or below 20, a high level limits training whatever the
    heat category is, category 5 included. *)
Theorem high_precipitation_before_heat :
  forall (T : R) (wc : option R) (h : option Z) (app : bool)
         (ov : option string),
    PyStr.truthy ov = false ->
    (forall w : R, wc = Some w -> 20 < w) ->
    final_training_decision T wc h app ov "high"
    = "LIMIT OUTDOOR TRAINING / USE INDOORS WHEN POSSIBLE (PRECIPITATION)".
Proof.
  intros T wc h app ov Hov Hwc; unfold final_training_decision.
  cbv beta zeta; rewrite Hov.
  destruct wc as [w |]; [| reflexivity].
  specialize (Hwc w eq_refl); float_eval; reflexivity.
Qed.

Lemma high_precipitation_before_heat_witness :
  final_training_decision 95 None (Some 5%Z) true None "high"
  = "LIMIT OUTDOOR TRAINING / USE INDOORS WHEN POSSIBLE (PRECIPITATION)".
Proof.
  apply high_precipitation_before_heat; [reflexivity | discriminate].
Defined.

(** ** The route: how its outputs go together *)

Lemma dashboard_heat (temp_f wind_mph wbgt_f : R) (weather_text : option string) :
  let g := dashboard temp_f wind_mph wbgt_f weather_text in
  (heat_label g, heat_num g) =
    if temp_f >? WBGT_CUTOFF_F
    then (fst (heat_category_from_wbgt_f wbgt_f),
          Some (snd (heat_category_from_wbgt_f wbgt_f)))
    else ("N/A (cold)", None).
Proof.
  unfold dashboard.
  destruct (temp_f >? WBGT_CUTOFF_F);
    destruct (heat_category_from_wbgt_f wbgt_f) as [l n];
    destruct (interpret_condition weather_text) as [[lvl note] ov];
    destruct (recommend_uniform_option_a _ _ _ _ _) as [u ul];
    reflexivity.
Qed.

Lemma interpret_condition_override (cond_text : option string) :
  let r := interpret_condition cond_text in
  (PyStr.truthy (snd r) = true /\ fst (fst r) = "extreme" /\
   (snd r = Some "NO OUTDOOR TRAINING" \/ snd r = Some "NO OUTDOOR_TRAINING")) \/
  (PyStr.truthy (snd r) = false /\ snd r = None /\ fst (fst r) <> "extreme").
Proof.
  intros r; pose proof (interpret_condition_shape cond_text) as (_ & Hnone & Htr).
  fold r in Hnone, Htr.
  destruct r as [[lvl note] ov] eqn:E; cbn [fst snd] in *.
  destruct (PyStr.truthy ov) eqn:Hov.
  - left; split; [reflexivity |].
    assert (Hl : lvl = "extreme") by now apply Htr.
    split; [exact Hl |].
    subst lvl; exact (interpret_condition_extreme cond_text note ov E).
  - right; split; [reflexivity |].
    assert (Hl : lvl <> "extreme").
    { intros Hl; apply Htr in Hl; discriminate Hl. }
    split; [| exact Hl].
    destruct ov as [s |]; [| reflexivity].
    exfalso; apply Hl, Hnone; discriminate.
Qed.

(** The two policy functions on inputs as the routes build them: an override
    exactly with the extreme level and one of the two override strings, and
    no wind chill when the WBGT applies. *)
Lemma decision_uniform_consistent (T : R) (wc : option R) (h : option Z)
    (app : bool) (ov : option string) (lvl : string) :
  (PyStr.truthy ov = true /\ lvl = "extreme" /\
   (ov = Some "NO OUTDOOR TRAINING" \/ ov = Some "NO OUTDOOR_TRAINING")) \/
  (PyStr.truthy ov = false /\ ov = None /\ lvl <> "extreme") ->
  (app = true -> wc = None) ->
  (PyStr.truthy ov = true ->
   snd (recommend_uniform_option_a T wc h app lvl) = 3%Z) /\
  decision_matches_uniform
    (final_training_decision T wc h app ov lvl)
    (snd (recommend_uniform_option_a T wc h app lvl)) /\
  (0 <= snd (recommend_uniform_option_a T wc h app lvl) <= 3)%Z.
Proof.
  intros Hov Hexcl.
  unfold decision_matches_uniform, final_training_decision,
    recommend_uniform_option_a; cbv beta zeta.
  destruct Hov as [(Ht & -> & Hs) | (Ht & -> & Hl)].
  - destruct Hs as [-> | ->]; cbn;
      repeat split; intros; first [discriminate | reflexivity | lia].
  - apply String.eqb_neq in Hl; rewrite Hl; cbn [PyStr.truthy].
    destruct app.
    + rewrite (Hexcl eq_refl).
      destruct h as [n |]; cbv beta iota;
        repeat match goal with
               | |- context [if ?b then _ else _] => destruct b
               end; cbn [snd];
        repeat split; intros; first [discriminate | reflexivity | lia].
    + destruct wc as [w |], h as [n |]; cbv beta iota;
        repeat match goal with
               | |- context [if ?b then _ else _] => destruct b
               end; cbn [snd];
        repeat split; intros; first [discriminate | reflexivity | lia].
Qed.

Lemma dashboard_inputs_consistent (T V wbgt_f : R) (weather_text : option string) :
  let g := dashboard T V wbgt_f weather_text in
  ((PyStr.truthy (precip_override g) = true /\ precip_level g = "extreme" /\
    (precip_override g = Some "NO OUTDOOR TRAINING" \/
     precip_override g = Some "NO OUTDOOR_TRAINING")) \/
   (PyStr.truthy (precip_override g) = false /\ precip_override g = None /\
    precip_level g <> "extreme")) /\
  (wbgt_applicable g = true -> wc g = None).
Proof.
  intros g.
  destruct (dashboard_fields T V wbgt_f weather_text)
    as (Hwc & Happ & _ & Hlvl & Hov & _).
  fold g in Hwc, Happ, Hlvl, Hov.
  rewrite Hwc, Happ, Hlvl, Hov; split.
  - exact (interpret_condition_override weather_text).
  - intros HT; apply wind_chill_f_absent; left.
    apply PyFloatFacts.gtb_true in HT; unfold WBGT_CUTOFF_F in HT; exact HT.
Qed.

Lemma dashboard_consistent (T V wbgt_f : R) (weather_text : option string) :
  let g := dashboard T V wbgt_f weather_text in
  (PyStr.truthy (precip_override g) = true -> uniform_level g = 3%Z) /\
  decision_matches_uniform (final_dec g) (uniform_level g) /\
  (0 <= uniform_level g <= 3)%Z.
Proof.
  intros g.
  destruct (dashboard_inputs_consistent T V wbgt_f weather_text) as [Hov Hexcl].
  destruct (dashboard_fields T V wbgt_f weather_text)
    as (_ & _ & _ & _ & _ & Hu & Hdec).
  fold g in Hov, Hexcl, Hu, Hdec.
  pose proof (decision_uniform_consistent T (wc g) (heat_num g)
                (wbgt_applicable g) (precip_override g) (precip_level g)
                Hov Hexcl) as H.
  rewrite <- Hu, <- Hdec in H; exact H.
Qed.

(** X12: On every observation the uniform level goes with the decision: level 3
    with an override and with the extreme cold and extreme heat decisions,
    level 2 with moving indoors and with the cold and heat limits, level 1
    with the heat caution, and at most level 1 when training is not
    restricted.  The level is always within 0..3. *)
Theorem dashboard_uniform_matches_decision :
  forall (T V wbgt_f : R) (weather_text : option string),
    let g := dashboard T V wbgt_f weather_text in
    (PyStr.truthy (precip_override g) = true -> uniform_level g = 3%Z) /\
    decision_matches_uniform (final_dec g) (uniform_level g) /\
    (0 <= uniform_level g <= 3)%Z.
Proof. exact dashboard_consistent. Qed.

Lemma dashboard_uniform_matches_decision_witness :
  uniform_level (dashboard 95 5 91 (Some "Thunderstorm")) = 3%Z.
Proof.
  apply (proj1 (dashboard_uniform_matches_decision 95 5 91 (Some "Thunderstorm"))).
  destruct (dashboard_fields 95 5 91 (Some "Thunderstorm"))
    as (_ & _ & _ & _ & Hov & _).
  rewrite Hov; reflexivity.
Defined.

Lemma calm_wind_dashboard (T V wbgt_f : R) (weather_text : option string) :
  V <= 3 -> T <= 50 ->
  PyStr.truthy (snd (interpret_condition weather_text)) = false ->
  fst (fst (interpret_condition weather_text)) <> "high" ->
  let g := dashboard T V wbgt_f weather_text in
  wc g = None /\
  final_dec g = "TRAIN OUTDOORS (NO RESTRICTIONS)" /\
  (T <= 33 -> uniform g = "Standard OCP/PT uniform" /\ uniform_level g = 0%Z).
Proof.
  intros HV HT Hov Hhigh g.
  destruct (dashboard_fields T V wbgt_f weather_text)
    as (Hwc & Happ & Hh & Hlvl & Hovg & Hu & Hdec).
  fold g in Hwc, Happ, Hh, Hlvl, Hovg, Hu, Hdec.
  pose proof (dashboard_inputs_consistent T V wbgt_f weather_text) as Hc.
  fold g in Hc.
  destruct Hc as [[(Ht & _) | (_ & Hnone & Hext)] _];
    [rewrite Hovg in Ht; congruence |].
  assert (HT' : (T >? WBGT_CUTOFF_F) = false)
    by (apply PyFloatFacts.gtb_false; unfold WBGT_CUTOFF_F; lra).
  rewrite HT' in Happ, Hh.
  rewrite wind_chill_f_absent in Hwc by (right; exact HV).
  rewrite <- Hlvl in Hhigh.
  apply String.eqb_neq in Hhigh, Hext.
  split; [exact Hwc | split].
  - rewrite Hdec, Hwc, Hh, Happ, Hnone.
    unfold final_training_decision; cbn [PyStr.truthy]; now rewrite Hhigh.
  - intros H33.
    rewrite Hwc, Hh, Happ in Hu.
    unfold recommend_uniform_option_a in Hu; rewrite Hext in Hu.
    replace (T >? 33) with false in Hu
      by (symmetry; apply PyFloatFacts.gtb_false; lra).
    rewrite andb_false_r in Hu.
    now injection Hu as -> ->.
Qed.

(** X13: With a wind of 3 mph or less there is no wind chill, so at 50 degrees or
    below, however cold, and with no override and no high precipitation, the
    decision is to train without restrictions; at 33 degrees or below the
    uniform is then the standard one, level 0. *)
Theorem calm_wind_gives_no_cold_guidance :
  forall (T V wbgt_f : R) (weather_text : option string),
    V <= 3 -> T <= 50 ->
    PyStr.truthy (snd (interpret_condition weather_text)) = false ->
    fst (fst (interpret_condition weather_text)) <> "high" ->
    let g := dashboard T V wbgt_f weather_text in
    wc g = None /\
    final_dec g = "TRAIN OUTDOORS (NO RESTRICTIONS)" /\
    (T <= 33 -> uniform g = "Standard OCP/PT uniform" /\ uniform_level g = 0%Z).
Proof. exact calm_wind_dashboard. Qed.

Lemma calm_wind_gives_no_cold_guidance_witness :
  let g := dashboard (-40) 0 (-40) (Some "Clear") in
  wc g = None /\
  final_dec g = "TRAIN OUTDOORS (NO RESTRICTIONS)" /\
  (-40 <= 33 -> uniform g = "Standard OCP/PT uniform" /\ uniform_level g = 0%Z).
Proof.
  apply (calm_wind_gives_no_cold_guidance (-40) 0 (-40) (Some "Clear"));
    [lra | lra | reflexivity | discriminate].
Defined.

(** X14: Above 33 and up to 50 degrees, 50 included, the WBGT does not apply, the
    heat category is "N/A (cold)", and the uniform level is at least 1. *)
Theorem cool_band_gets_at_least_fleece :
  forall (T V wbgt_f : R) (weather_text : option string),
    33 < T <= 50 ->
    let g := dashboard T V wbgt_f weather_text in
    wbgt_applicable g = false /\
    heat_num g = None /\
    heat_label g = "N/A (cold)" /\
    (1 <= uniform_level g)%Z.
Proof.
  intros T V wbgt_f weather_text HT g.
  destruct (dashboard_fields T V wbgt_f weather_text)
    as (Hwc & Happ & Hh & _ & _ & Hu & _).
  pose proof (dashboard_heat T V wbgt_f weather_text) as Hheat.
  fold g in Hwc, Happ, Hh, Hu, Hheat.
  assert (HT' : (T >? WBGT_CUTOFF_F) = false)
    by (apply PyFloatFacts.gtb_false; unfold WBGT_CUTOFF_F; lra).
  rewrite HT' in Happ, Hh, Hheat.
  injection Hheat as Hl _.
  split; [exact Happ | split; [exact Hh | split; [exact Hl |]]].
  assert (Hlev : uniform_level g
                 = snd (recommend_uniform_option_a T (wc g) (heat_num g)
                          (wbgt_applicable g) (precip_level g)))
    by now rewrite <- Hu.
  rewrite Hlev, Hh, Happ; unfold recommend_uniform_option_a.
  replace (T <=? 50) with true by (symmetry; apply PyFloatFacts.leb_true; lra).
  replace (T >? 33) with true by (symmetry; apply PyFloatFacts.gtb_true; lra).
  destruct (wc g) as [w |]; cbn [andb];
    repeat match goal with
           | |- context [if ?b then _ else _] => destruct b
           end; cbn [snd]; lia.
Qed.

Lemma cool_band_gets_at_least_fleece_witness :
  let g := dashboard 50 2 60 (Some "Clear") in
  wbgt_applicable g = false /\
  heat_num g = None /\
  heat_label g = "N/A (cold)" /\
  (1 <= uniform_level g)%Z.
Proof.
  apply (cool_band_gets_at_least_fleece 50 2 60 (Some "Clear")); lra.
Defined.

(** ** The colour of the decision on the page *)

Lemma decision_css_class_values (final : string) :
  final = "NO OUTDOOR TRAINING" \/ final = "NO OUTDOOR_TRAINING" \/
  In final decisions ->
  (decision_css_class final = "red" <->
     final = "NO OUTDOOR TRAINING" \/ final = "NO OUTDOOR_TRAINING" \/
     final = "NO OUTDOOR TRAINING — EXTREME COLD" \/
     final = "MOVE TRAINING INDOORS / HIGH COLD RISK" \/
     final = "NO OUTDOOR TRAINING — EXTREME HEAT (BLACK FLAG)") /\
  (decision_css_class final = "yellow" <->
     final = "LIMIT OUTDOOR TRAINING / USE INDOORS WHEN POSSIBLE (COLD CAUTION)" \/
     final = "LIMIT OUTDOOR TRAINING / USE INDOORS WHEN POSSIBLE (PRECIPITATION)" \/
     final = "LIMIT OUTDOOR TRAINING / USE INDOORS WHEN POSSIBLE (HEAT)") /\
  (decision_css_class final = "green" <->
     final = "TRAIN OUTDOORS WITH CAUTION (HEAT)" \/
     final = "TRAIN OUTDOORS (NO RESTRICTIONS)").
Proof.
  unfold decisions; cbn [In]; intros H.
  repeat (destruct H as [E | H];
          [subst final; vm_compute decision_css_class;
           repeat split; intros; try discriminate; try tauto;
           repeat match goal with
                  | H : _ \/ _ |- _ => destruct H
                  end; discriminate |]).
  contradiction.
Qed.

(** X15: The page shows the decision in red when it is an override, the extreme
    cold, move indoors or extreme heat decision, in yellow when it is one of
    the three limits, and in green otherwise, the heat caution included. *)
Theorem decision_colour :
  forall (T V wbgt_f : R) (weather_text : option string),
    let g := dashboard T V wbgt_f weather_text in
    let final := final_dec g in
    (decision_css_class final = "red" <->
       final = "NO OUTDOOR TRAINING" \/ final = "NO OUTDOOR_TRAINING" \/
       final = "NO OUTDOOR TRAINING — EXTREME COLD" \/
       final = "MOVE TRAINING INDOORS / HIGH COLD RISK" \/
       final = "NO OUTDOOR TRAINING — EXTREME HEAT (BLACK FLAG)") /\
    (decision_css_class final = "yellow" <->
       final = "LIMIT OUTDOOR TRAINING / USE INDOORS WHEN POSSIBLE (COLD CAUTION)" \/
       final = "LIMIT OUTDOOR TRAINING / USE INDOORS WHEN POSSIBLE (PRECIPITATION)" \/
       final = "LIMIT OUTDOOR TRAINING / USE INDOORS WHEN POSSIBLE (HEAT)") /\
    (decision_css_class final = "green" <->
       final = "TRAIN OUTDOORS WITH CAUTION (HEAT)" \/
       final = "TRAIN OUTDOORS (NO RESTRICTIONS)").
Proof.
  intros T V wbgt_f weather_text g final.
  apply decision_css_class_values.
  destruct (dashboard_fields T V wbgt_f weather_text)
    as (_ & _ & _ & _ & _ & _ & Hdec).
  destruct (dashboard_inputs_consistent T V wbgt_f weather_text) as [Hov _].
  fold g in Hdec, Hov; fold final in Hdec.
  destruct (final_decision_cases T (wc g) (heat_num g) (wbgt_applicable g)
              (precip_override g) (precip_level g)) as [[Ht He] | [Ht Hin]].
  - rewrite <- Hdec in He.
    destruct Hov as [(_ & _ & [Hs | Hs]) | (Hf & _)]; [| | congruence];
      rewrite Hs in He; injection He as He; auto.
  - rewrite <- Hdec in Hin; auto.
Qed.

(** ** The forecast cards and the weekly rows *)

Lemma snow_note_has_snow (cond : string) :
  let note := snd (fst (interpret_condition (Some cond))) in
  note = "Heavy snow — visibility & slip risk" \/
  note = "Snow present — traction/visibility caution" ->
  PyStr.contains "snow" (PyStr.lower cond)
  || PyStr.contains "flurr" (PyStr.lower cond) = true.
Proof.
  intros note; subst note.
  destruct (interpret_condition (Some cond)) as [[lvl note] ov] eqn:E.
  cbn [fst snd]; revert E.
  unfold interpret_condition; cbv beta zeta; cbn [PyStr.or_empty].
  repeat (split_if;
          [intros H; inversion H; intros [Hn | Hn]; try discriminate Hn |]);
    [ | | intros H; inversion H; intros [Hn | Hn]; discriminate Hn].
  - match goal with
    | Hs : PyStr.contains "heavy snow" _ = true |- _ =>
        rewrite (contains_trans "snow" "heavy snow" _ eq_refl Hs)
    end; reflexivity.
  - reflexivity.
Qed.

Lemma freezing_note_has_rain (cond : string) :
  snd (fst (interpret_condition (Some cond))) = "Freezing rain / ice risk" ->
  PyStr.contains "rain" (PyStr.lower cond) = true.
Proof.
  destruct (interpret_condition (Some cond)) as [[lvl note] ov] eqn:E.
  cbn [fst snd]; revert E.
  unfold interpret_condition; cbv beta zeta; cbn [PyStr.or_empty].
  repeat (split_if; [intros H; inversion H; intros Hn; try discriminate Hn |]);
    [ | intros H; inversion H; intros Hn; discriminate Hn].
  match goal with
  | Hs : _ || _ = true |- _ =>
      apply orb_true_iff in Hs; destruct Hs as [Hfr | Hboth];
      [ exact (contains_trans "rain" "freezing rain" _ eq_refl Hfr)
      | now apply andb_true_iff in Hboth ]
  end.
Qed.

(** X17: The precipitation type of a forecast card agrees with the condition
    interpreter where snow and freezing rain are concerned: a text that the
    interpreter notes as snow or heavy snow is shown as "Snow/Flurries", and
    one noted as freezing rain is never shown as "None".  A chance of snow
    above 20 shows "Snow/Flurries" whatever the text says. *)
Theorem forecast_precip_type_agrees :
  forall (cond : string) (dday : DayData),
    let note := snd (fst (interpret_condition (Some cond))) in
    (note = "Heavy snow — visibility & slip risk" \/
     note = "Snow present — traction/visibility caution" ->
     forecast_precip_type cond dday = "Snow/Flurries") /\
    (note = "Freezing rain / ice risk" ->
     forecast_precip_type cond dday <> "None") /\
    (forall chance : R,
       daily_chance_of_snow dday = Some chance -> 20 < chance ->
       forecast_precip_type cond dday = "Snow/Flurries").
Proof.
  intros cond dday note; subst note; unfold forecast_precip_type; cbv zeta.
  repeat split.
  - intros Hn; now rewrite (snow_note_has_snow cond Hn).
  - intros Hn; rewrite (freezing_note_has_rain cond Hn).
    destruct (_ || _ || _); discriminate.
  - intros chance -> Hc; cbn [PyMath.get].
    replace (chance >? 20) with true
      by (symmetry; apply PyFloatFacts.gtb_true; lra).
    now rewrite orb_true_r.
Qed.

Lemma forecast_precip_type_agrees_witness :
  forecast_precip_type "Patchy heavy snow"
    {| day_date := "2025-12-08"; condition_text := Some "Patchy heavy snow";
       daily_chance_of_snow := None; daily_chance_of_rain := Some 80;
       avgtemp_f := 20; avgtemp_c := -6.7;
       avghumidity := None; maxwind_mph := None |}
  = "Snow/Flurries".
Proof.
  apply (proj1 (forecast_precip_type_agrees "Patchy heavy snow" _)).
  left; reflexivity.
Defined.

Lemma forecast_day_defined (d : DayData) (cond : string) :
  condition_text d = Some cond -> exists card, forecast_day d = Some card.
Proof.
  intros Hc; unfold forecast_day; rewrite Hc.
  destruct (approx_wbgt _ _ _ _) as [[wbgt_c twb] tg].
  destruct (avgtemp_f d >? WBGT_CUTOFF_F);
    [destruct (heat_category_from_wbgt_f _) as [l n] |];
    destruct (interpret_condition (Some cond)) as [[lvl note] ov];
    destruct (recommend_uniform_option_a _ _ _ _ _) as [u ul];
    eexists; reflexivity.
Qed.

(** X18: The weekly row and the forecast card of the same day agree on the WBGT,
    the wind chill, the heat category number, the decision, the uniform and
    the PT uniform when the day carries its condition text, its Celsius
    average is the conversion of the Fahrenheit one, its humidity is a whole
    number and its wind has one decimal.  The row rounds the wind and
    truncates the humidity before it computes, the card after. *)
Theorem weekly_row_agrees_with_forecast_card :
  forall (d : DayData) (card : Forecast.Card) (j k : Z),
    forecast_day d = Some card ->
    avgtemp_c d = f_to_c (avgtemp_f d) ->
    PyMath.get (avghumidity d) 50 = IZR j ->
    PyMath.get (maxwind_mph d) 0 = IZR k / 10 ->
    let row := weekly_row d in
    Weekly.wbgt_f row = Forecast.wbgt_f card /\
    Weekly.wc row = Forecast.wc card /\
    Weekly.heat_num row = Forecast.heat_num card /\
    Weekly.final row = Forecast.final card /\
    Weekly.uniform row = Forecast.uniform card /\
    Weekly.pt_uniform row = Forecast.pt_uniform card.
Proof.
  intros d card j k Hcard Hc Hrh Hwind row; subst row.
  unfold forecast_day in Hcard; unfold weekly_row.
  destruct (condition_text d) as [cond |]; [| discriminate Hcard].
  cbn [PyMath.get] in *.
  rewrite Hc, Hrh, Hwind in Hcard.
  rewrite Hrh, Hwind, PyMathFacts.int_IZR, PyMathFacts.round_1_of_tenths.
  destruct (approx_wbgt _ _ _ _) as [[wbgt_c twb] tg].
  destruct (avgtemp_f d >? WBGT_CUTOFF_F);
    [destruct (heat_category_from_wbgt_f _) as [l n] |];
    destruct (interpret_condition (Some cond)) as [[lvl note] ov];
    destruct (recommend_uniform_option_a _ _ _ _ _) as [u ul];
    injection Hcard as <-; cbn; repeat split.
Qed.

Lemma weekly_row_agrees_with_forecast_card_witness :
  let d := {| day_date := "2025-12-08"; condition_text := Some "Sunny";
              daily_chance_of_snow := None; daily_chance_of_rain := None;
              avgtemp_f := 32; avgtemp_c := f_to_c 32;
              avghumidity := Some (IZR 60); maxwind_mph := Some (IZR 125 / 10) |} in
  exists card : Forecast.Card,
    forecast_day d = Some card /\
    Weekly.final (weekly_row d) = Forecast.final card.
Proof.
  intros d.
  destruct (forecast_day_defined d "Sunny" eq_refl) as [card E].
  exists card; split; [exact E |].
  exact (proj1 (proj2 (proj2 (proj2
    (weekly_row_agrees_with_forecast_card d card 60 125 E
       eq_refl eq_refl eq_refl))))).
Defined.

(** X7: The heat category of a forecast card and of a weekly row is the one the
    half-open table gives to the WBGT the card or row shows; at 50 degrees or
    below there is no category and the label is "Cold" on the card and "N/A"
    on the row. *)
Theorem forecast_and_weekly_heat_follow_table :
  forall d : DayData,
    (forall card : Forecast.Card,
       forecast_day d = Some card ->
       (Forecast.heat_label card, Forecast.heat_num card) =
         if avgtemp_f d >? WBGT_CUTOFF_F
         then (fst (heat_category_table (Forecast.wbgt_f card)),
               Some (snd (heat_category_table (Forecast.wbgt_f card))))
         else ("Cold", None)) /\
    (Weekly.heat (weekly_row d), Weekly.heat_num (weekly_row d)) =
      if avgtemp_f d >? WBGT_CUTOFF_F
      then (fst (heat_category_table (Weekly.wbgt_f (weekly_row d))),
            Some (snd (heat_category_table (Weekly.wbgt_f (weekly_row d)))))
      else ("N/A", None).
Proof.
  intros d; split.
  - intros card Hcard; unfold forecast_day in Hcard.
    destruct (condition_text d) as [cond |]; [| discriminate Hcard].
    destruct (approx_wbgt _ _ _ _) as [[wbgt_c twb] tg].
    destruct (PyMathFacts.round_1_tenths (c_to_f wbgt_c)) as [k Hk].
    rewrite Hk, heat_category_tenths in Hcard.
    destruct (avgtemp_f d >? WBGT_CUTOFF_F);
      [destruct (heat_category_table _) as [l n] eqn:Et |];
      destruct (interpret_condition (Some cond)) as [[lvl note] ov];
      destruct (recommend_uniform_option_a _ _ _ _ _) as [u ul];
      injection Hcard as <-; cbn; rewrite ?Et; reflexivity.
  - unfold weekly_row.
    destruct (approx_wbgt _ _ _ _) as [[wbgt_c twb] tg].
    destruct (PyMathFacts.round_1_tenths (c_to_f wbgt_c)) as [k Hk].
    rewrite Hk, heat_category_tenths.
    destruct (avgtemp_f d >? WBGT_CUTOFF_F);
      [destruct (heat_category_table _) as [l n] eqn:Et |];
      destruct (interpret_condition _) as [[lvl note] ov];
      destruct (recommend_uniform_option_a _ _ _ _ _) as [u ul];
      cbn; rewrite ?Et; reflexivity.
Qed.

Lemma forecast_and_weekly_heat_follow_table_witness :
  let d := {| day_date := "2025-07-04"; condition_text := Some "Sunny";
              daily_chance_of_snow := None; daily_chance_of_rain := None;
              avgtemp_f := 95; avgtemp_c := 35;
              avghumidity := Some 60; maxwind_mph := Some 5 |} in
  exists card : Forecast.Card,
    forecast_day d = Some card /\
    (Forecast.heat_label card, Forecast.heat_num card) =
      if 95 >? WBGT_CUTOFF_F
      then (fst (heat_category_table (Forecast.wbgt_f card)),
            Some (snd (heat_category_table (Forecast.wbgt_f card))))
      else ("Cold", None).
Proof.
  intros d.
  destruct (forecast_day_defined d "Sunny" eq_refl) as [card E].
  exists card; split; [exact E |].
  exact (proj1 (forecast_and_weekly_heat_follow_table d) card E).
Defined.

(** ** The manual override *)

(** X19: Both the temperature and the humidity must be there for the manual
    override, else the live weather is fetched; a field that is there and is
    no number gives the 400 answer; a wind left out is 3.0 mph; the text is
    "Manual" and the clouds are 0. *)
Theorem manual_override_outcomes :
  (forall (q_temp_f q_rh q_wind : option PyArg),
     q_temp_f = None \/ q_rh = None ->
     manual_override q_temp_f q_rh q_wind = LiveFetch) /\
  (forall (a b : PyArg) (q_wind : option PyArg),
     py_float a = None \/ py_float b = None \/
     (exists w, q_wind = Some w /\ py_float w = None) ->
     manual_override (Some a) (Some b) q_wind
     = Invalid "Invalid manual input (temp/rh/wind must be numbers)" 400) /\
  (forall (T rh : R) (q_wind : option PyArg),
     (forall w, q_wind = Some w -> py_float w <> None) ->
     manual_override (Some (PyNumber T)) (Some (PyNumber rh)) q_wind
     = Manual T rh (PyMath.get (match q_wind with
                                | Some w => py_float w
                                | None => None
                                end) 3.0) "Manual" 0).
Proof.
  repeat split.
  - intros q_temp_f q_rh q_wind [-> | ->]; [reflexivity |].
    now destruct q_temp_f.
  - intros a b q_wind H; unfold manual_override.
    destruct (py_float a) as [t |], (py_float b) as [r |]; try reflexivity;
      destruct H as [H | [H | (w & -> & H)]]; try discriminate H.
    now rewrite H.
  - intros T rh q_wind H; unfold manual_override; cbn [py_float].
    destruct q_wind as [w |]; [| reflexivity].
    specialize (H w eq_refl).
    destruct w; [reflexivity | now contradiction H].
Qed.

Lemma manual_override_outcomes_witness :
  manual_override (Some (PyNumber 70)) (Some PyNonNumeric) None
  = Invalid "Invalid manual input (temp/rh/wind must be numbers)" 400.
Proof.
  apply (proj1 (proj2 manual_override_outcomes)); right; left; reflexivity.
Defined.

(** X20: A manual entry without wind never meets the cold rules: the wind is
    3.0 mph, so there is no wind chill, "Manual" is no hazard, and at 50
    degrees or below the decision is to train without restrictions. *)
Theorem manual_entry_without_wind :
  forall T rh : R,
    match manual_override (Some (PyNumber T)) (Some (PyNumber rh)) None with
    | Manual temp_f rh' wind_mph text clouds =>
        let g := dashboard_route temp_f rh' wind_mph clouds (Some text) in
        wc g = None /\ precip_level g = "low" /\ precip_override g = None /\
        (T <= 50 -> final_dec g = "TRAIN OUTDOORS (NO RESTRICTIONS)")
    | _ => False
    end.
Proof.
  intros T rh; cbn [manual_override py_float].
  unfold dashboard_route, dashboard_indices, approx_wbgt; cbv beta zeta iota.
  set (wbgt_f := PyMath.round _ 2).
  destruct (dashboard_fields T 3.0 wbgt_f (Some "Manual"))
    as (Hwc & _ & _ & Hlvl & Hov & _).
  rewrite wind_chill_f_absent in Hwc by (right; lra).
  split; [exact Hwc | split; [exact Hlvl | split; [exact Hov |]]].
  intros HT.
  apply (calm_wind_dashboard T 3.0 wbgt_f (Some "Manual"));
    [lra | exact HT | reflexivity | discriminate].
Qed.

Lemma manual_entry_without_wind_witness :
  final_dec (dashboard_route (-10) 40 3.0 0 (Some "Manual"))
  = "TRAIN OUTDOORS (NO RESTRICTIONS)".
Proof.
  assert (H : -10 <= 50) by lra.
  exact (proj2 (proj2 (proj2 (manual_entry_without_wind (-10) 40))) H).
Defined.

(** ** PT uniform: where the last label is given *)

(** X21: The cold-weather label, the last [return] of the function, is given
    below 20 degrees and also strictly between 39 and 40 and between 59 and
    60; on a whole number of degrees it is given below 20 only. *)
Theorem pt_cold_weather_label :
  (forall t : R,
     recommend_pt_uniform (PyNumber t)
     = "Full cold-weather PT gear (sweats, gloves, hat)" <->
     t < 20 \/ 39 < t < 40 \/ 59 < t < 60) /\
  (forall k : Z,
     recommend_pt_uniform (PyNumber (IZR k))
     = "Full cold-weather PT gear (sweats, gloves, hat)" <->
     (k < 20)%Z).
Proof.
  assert (Hreal : forall t : R,
            recommend_pt_uniform (PyNumber t)
            = "Full cold-weather PT gear (sweats, gloves, hat)" <->
            t < 20 \/ 39 < t < 40 \/ 59 < t < 60).
  { intros t; unfold recommend_pt_uniform, py_float.
    repeat match goal with
           | |- context [?a >? ?b] =>
               let H := fresh "H" in
               destruct (a >? b) eqn:H;
               [apply PyFloatFacts.gtb_true in H
               | apply PyFloatFacts.gtb_false in H]
           | |- context [?a <=? ?b] =>
               let H := fresh "H" in
               destruct (a <=? b) eqn:H;
               [apply PyFloatFacts.leb_true in H
               | apply PyFloatFacts.leb_false in H]
           end; cbn [andb];
      (split;
       [ intros E; first [discriminate E | lra
                         | left; lra | right; left; lra | right; right; lra]
       | intros [E | [E | E]]; first [reflexivity | exfalso; lra] ]). }
  split; [exact Hreal |].
  intros k; rewrite Hreal; split.
  - intros [H | [[H1 H2] | [H1 H2]]].
    + now apply lt_IZR in H.
    + apply lt_IZR in H1, H2; lia.
    + apply lt_IZR in H1, H2; lia.
  - intros H; left; now apply IZR_lt.
Qed.

(** ** The two colours of the page *)

Lemma dashboard_decision_cases (T V wbgt_f : R) (weather_text : option string) :
  let g := dashboard T V wbgt_f weather_text in
  (PyStr.truthy (precip_override g) = true /\
   (final_dec g = "NO OUTDOOR TRAINING" \/ final_dec g = "NO OUTDOOR_TRAINING")) \/
  (PyStr.truthy (precip_override g) = false /\ In (final_dec g) decisions).
Proof.
  intros g.
  destruct (dashboard_fields T V wbgt_f weather_text)
    as (_ & _ & _ & _ & _ & _ & Hdec).
  destruct (dashboard_inputs_consistent T V wbgt_f weather_text) as [Hov _].
  fold g in Hdec, Hov.
  destruct (final_decision_cases T (wc g) (heat_num g) (wbgt_applicable g)
              (precip_override g) (precip_level g)) as [[Ht He] | [Ht Hin]].
  - left; split; [exact Ht |].
    rewrite <- Hdec in He.
    destruct Hov as [(_ & _ & [Hs | Hs]) | (Hf & _)]; [| | congruence];
      rewrite Hs in He; injection He as He; auto.
  - right; split; [exact Ht |]; now rewrite Hdec.
Qed.

(** X16: A decision shown in red comes with a uniform shown in red or black
    (level 2 or 3), and a decision shown in green with a uniform shown in
    green or yellow (level 0 or 1). *)
Theorem page_colours_agree :
  forall (T V wbgt_f : R) (weather_text : option string),
    let g := dashboard T V wbgt_f weather_text in
    (decision_css_class (final_dec g) = "red" ->
     uniform_css_class (uniform_level g) = "red" \/
     uniform_css_class (uniform_level g) = "black") /\
    (decision_css_class (final_dec g) = "green" ->
     uniform_css_class (uniform_level g) = "green" \/
     uniform_css_class (uniform_level g) = "yellow").
Proof.
  intros T V wbgt_f weather_text g.
  destruct (dashboard_consistent T V wbgt_f weather_text)
    as (Hov3 & Hm & Hrange).
  fold g in Hov3, Hm, Hrange.
  unfold decision_matches_uniform in Hm.
  destruct Hm as (H1 & H2 & H3 & H4 & H5 & H6 & H7).
  assert (Hclass : forall n : Z,
            (uniform_level g = n -> n = 2 \/ n = 3 ->
             uniform_css_class (uniform_level g) = "red" \/
             uniform_css_class (uniform_level g) = "black")%Z).
  { intros n -> [-> | ->]; [left | right]; reflexivity. }
  destruct (dashboard_decision_cases T V wbgt_f weather_text)
    as [[Ht Hs] | [Ht Hin]]; fold g in Ht, Hs || fold g in Ht, Hin.
  - specialize (Hov3 Ht); split.
    + intros _; apply (Hclass 3%Z); auto.
    + destruct Hs as [Hs | Hs]; rewrite Hs; intros E; discriminate E.
  - unfold decisions in Hin; cbn [In] in Hin.
    repeat (destruct Hin as [E | Hin];
            [rewrite <- E in *; split; intros Hc;
             first [ discriminate Hc
                   | apply (Hclass 3%Z); auto; fail
                   | apply (Hclass 2%Z); auto; fail
                   | rewrite (H6 eq_refl); right; reflexivity
                   | idtac ] |]);
      try contradiction.
    assert (Hl : (uniform_level g = 0 \/ uniform_level g = 1)%Z)
      by (specialize (H7 eq_refl); lia).
    destruct Hl as [-> | ->]; [left | right]; reflexivity.
Qed.

Lemma page_colours_agree_witness :
  let g := dashboard 95 5 91 (Some "Thunderstorm") in
  uniform_css_class (uniform_level g) = "red" \/
  uniform_css_class (uniform_level g) = "black".
Proof.
  intros g.
  apply (proj1 (page_colours_agree 95 5 91 (Some "Thunderstorm"))).
  destruct (dashboard_fields 95 5 91 (Some "Thunderstorm"))
    as (_ & _ & _ & _ & Hov & _ & Hdec).
  rewrite Hdec, Hov; reflexivity.
Defined.
